(** * A shallow embedding of the FIX client of [fix_client.go]

    The client is a thin layer over three libraries: Go's [crypto/hmac],
    [crypto/sha256] and [encoding/base64] for the logon signature, and the
    quickfix engine for messages.  The library functions the client calls
    are modelled first (SHA-256 after FIPS 180-4 as [sha256block.go] writes
    it, HMAC as [hmac.go] writes it, the standard base64 alphabet with
    padding, quickfix's field maps and its message serialiser); the client
    itself follows, callback by callback, in a state monad over the
    process's world (clock, environment, log, outbox). *)

From Stdlib Require Import ZArith Ascii String List Lia DecimalString DecimalPos DecimalZ.
From Stdlib.Strings Require Import Byte.
From stdpp Require Import gmap strings list fin_maps.

Local Open Scope Z_scope.

(** ** Bytes *)

(** [[]byte] is [list byte]; a byte is read as a number in [0, 256). *)
Definition Z_of_byte (b : byte) : Z := Z.of_N (Byte.to_N b).

Definition byte_of_Z (z : Z) : byte :=
  match Byte.of_N (Z.to_N (z mod 256)) with
  | Some b => b
  | None => x00
  end.

#[local] Instance byte_eq_decision : EqDecision byte := Byte.byte_eq_dec.

(** [[]byte(s)] and [string(b)]: Go strings are byte sequences. *)
Definition bytes_of_string (s : string) : list byte := list_byte_of_string s.
Definition string_of_bytes (b : list byte) : string := string_of_list_byte b.

(** ** crypto/sha256 *)

Module sha256.

Definition u32 (x : Z) : Z := x mod 2 ^ 32.

(** [bits.RotateLeft32(x, -n)] on a 32-bit word. *)
Definition rotr (x n : Z) : Z :=
  Z.lor (Z.shiftr x n) (u32 (Z.shiftl x (32 - n))).

(** [^x] on a 32-bit word. *)
Definition not32 (x : Z) : Z := Z.lxor x (2 ^ 32 - 1).

(** The round constants [_K] (the first 32 bits of the fractional parts of
    the cube roots of the first 64 primes), in decimal. *)
Definition _K : list Z :=
  [ 1116352408; 1899447441; 3049323471; 3921009573;
    961987163; 1508970993; 2453635748; 2870763221;
    3624381080; 310598401; 607225278; 1426881987;
    1925078388; 2162078206; 2614888103; 3248222580;
    3835390401; 4022224774; 264347078; 604807628;
    770255983; 1249150122; 1555081692; 1996064986;
    2554220882; 2821834349; 2952996808; 3210313671;
    3336571891; 3584528711; 113926993; 338241895;
    666307205; 773529912; 1294757372; 1396182291;
    1695183700; 1986661051; 2177026350; 2456956037;
    2730485921; 2820302411; 3259730800; 3345764771;
    3516065817; 3600352804; 4094571909; 275423344;
    430227734; 506948616; 659060556; 883997877;
    958139571; 1322822218; 1537002063; 1747873779;
    1955562222; 2024104815; 2227730452; 2361852424;
    2428436474; 2756734187; 3204031479; 3329325298 ].

(** The initial hash value [init0 .. init7] (from the square roots of the
    first 8 primes), in decimal. *)
Definition init : list Z :=
  [ 1779033703; 3144134277; 1013904242; 2773480762;
    1359893119; 2600822924; 528734635; 1541459225 ].

Definition BlockSize : nat := 64.
Definition Size : nat := 32.

(** [w[i] = uint32(p[j])<<24 | uint32(p[j+1])<<16 | uint32(p[j+2])<<8 | uint32(p[j+3])] *)
Fixpoint words_of_bytes (p : list byte) : list Z :=
  match p with
  | b0 :: b1 :: b2 :: b3 :: rest =>
      Z.lor (Z.lor (Z.lor (Z.shiftl (Z_of_byte b0) 24) (Z.shiftl (Z_of_byte b1) 16))
                   (Z.shiftl (Z_of_byte b2) 8)) (Z_of_byte b3)
      :: words_of_bytes rest
  | _ => []
  end.

Definition at_ (w : list Z) (i : nat) : Z := nth i w 0.

(** The second loop of [blockGeneric]: [w[16..63]] from [w[0..15]]. *)
Fixpoint schedule (n : nat) (w : list Z) : list Z :=
  match n with
  | O => w
  | S n' =>
      let i := List.length w in
      let v1 := at_ w (i - 2) in
      let t1 := Z.lxor (Z.lxor (rotr v1 17) (rotr v1 19)) (Z.shiftr v1 10) in
      let v2 := at_ w (i - 15) in
      let t2 := Z.lxor (Z.lxor (rotr v2 7) (rotr v2 18)) (Z.shiftr v2 3) in
      schedule n' (w ++ [u32 (t1 + at_ w (i - 7) + t2 + at_ w (i - 16))])
  end.

Record regs := Regs { ra : Z; rb : Z; rc : Z; rd : Z; re : Z; rf : Z; rg : Z; rh : Z }.

(** One iteration of the third loop of [blockGeneric]. *)
Definition round (r : regs) (kw : Z * Z) : regs :=
  let '(Regs a b c d e f g h) := r in
  let t1 := u32 (h + Z.lxor (Z.lxor (rotr e 6) (rotr e 11)) (rotr e 25)
                   + Z.lxor (Z.land e f) (Z.land (not32 e) g)
                   + kw.1 + kw.2) in
  let t2 := u32 (Z.lxor (Z.lxor (rotr a 2) (rotr a 13)) (rotr a 22)
                 + Z.lxor (Z.lxor (Z.land a b) (Z.land a c)) (Z.land b c)) in
  Regs (u32 (t1 + t2)) a b c (u32 (d + t1)) e f g.

(** [blockGeneric] on one 64-byte chunk. *)
Definition block1 (h : list Z) (p : list byte) : list Z :=
  let w := schedule 48 (words_of_bytes p) in
  let r0 := Regs (at_ h 0) (at_ h 1) (at_ h 2) (at_ h 3)
                 (at_ h 4) (at_ h 5) (at_ h 6) (at_ h 7) in
  let '(Regs a b c d e f g hh) := fold_left round (combine _K w) r0 in
  [ u32 (at_ h 0 + a); u32 (at_ h 1 + b); u32 (at_ h 2 + c); u32 (at_ h 3 + d);
    u32 (at_ h 4 + e); u32 (at_ h 5 + f); u32 (at_ h 6 + g); u32 (at_ h 7 + hh) ].

(** [blockGeneric]: every whole chunk of [p], in order. *)
Fixpoint block (fuel : nat) (h : list Z) (p : list byte) : list Z :=
  match fuel with
  | O => h
  | S fuel' =>
      if (List.length p <? BlockSize)%nat then h
      else block fuel' (block1 h (firstn BlockSize p)) (skipn BlockSize p)
  end.

(** [binary.BigEndian.PutUint64] and [PutUint32]. *)
Definition be_bytes (n : nat) (x : Z) : list byte :=
  map (fun i => byte_of_Z (Z.shiftr x (8 * Z.of_nat i))) (rev (seq 0 n)).

(** [checkSum]: the padding is 0x80, zeros up to 56 mod 64, and the length
    in bits as a 64-bit big-endian number. *)
Definition padding (len : nat) : list byte :=
  let t := (len mod 64)%nat in
  let zeros := if (t <? 56)%nat then (55 - t)%nat else (64 + 55 - t)%nat in
  x80 :: repeat x00 zeros ++ be_bytes 8 ((Z.of_nat len * 8) mod 2 ^ 64).

Definition Sum256 (data : list byte) : list byte :=
  let p := data ++ padding (List.length data) in
  flat_map (be_bytes 4) (block (List.length p) init p).

End sha256.

(** ** hash.Hash, as [crypto/hmac] uses it *)

(** The running hash is held as the bytes written so far: [Write] adds
    data, [Sum(in)] appends the digest of what was written to [in]. *)
Record Hash := MkHash {
  hash_sum : list byte -> list byte;
  hash_block_size : nat;
  written : list byte
}.

Definition hash_New (sum : list byte -> list byte) (bs : nat) : Hash :=
  MkHash sum bs [].
Definition hash_Write (h : Hash) (p : list byte) : Hash :=
  MkHash (hash_sum h) (hash_block_size h) (written h ++ p).
Definition hash_Sum (h : Hash) (b : list byte) : list byte :=
  b ++ hash_sum h (written h).
Definition hash_Reset (h : Hash) : Hash :=
  MkHash (hash_sum h) (hash_block_size h) [].

Definition sha256_New : Hash := hash_New sha256.Sum256 sha256.BlockSize.

(** ** crypto/hmac *)

Module hmac.

Record t := Mk { opad : list byte; ipad : list byte; outer : Hash; inner : Hash }.

Definition xor_byte (k : Z) (b : byte) : byte :=
  byte_of_Z (Z.lxor (Z_of_byte b) k).

(** [copy(make([]byte, blocksize), key)] *)
Definition copy_into (blocksize : nat) (key : list byte) : list byte :=
  firstn blocksize key ++ repeat x00 (blocksize - List.length key).

(** [hmac.New(h, key)] *)
Definition New (h : Hash) (key : list byte) : t :=
  let blocksize := hash_block_size h in
  let '(outer, key) :=
    if (blocksize <? List.length key)%nat
    then (hash_Write h key, hash_Sum (hash_Write h key) [])
    else (h, key) in
  let ipad := map (xor_byte 0x36) (copy_into blocksize key) in
  let opad := map (xor_byte 0x5c) (copy_into blocksize key) in
  Mk opad ipad outer (hash_Write h ipad).

(** [h.Write(p)] *)
Definition Write (h : t) (p : list byte) : t :=
  Mk (opad h) (ipad h) (outer h) (hash_Write (inner h) p).

(** [h.Sum(in)] *)
Definition Sum (h : t) (b : list byte) : list byte :=
  let origLen := List.length b in
  let b' := hash_Sum (inner h) b in
  let outer := hash_Write (hash_Write (hash_Reset (outer h)) (opad h))
                          (skipn origLen b') in
  hash_Sum outer (firstn origLen b').

End hmac.

(** ** encoding/base64 *)

Module base64.

Definition encodeStd : list byte :=
  bytes_of_string "ABCDEFGHIJKLMNOPQRSTUVWXYZabcdefghijklmnopqrstuvwxyz0123456789+/".

Definition StdPadding : byte := "=".

(** [enc.encode[v]] *)
Definition code (v : Z) : byte := nth (Z.to_nat v) encodeStd x00.

(** [StdEncoding.Encode]: three bytes give four characters; a tail of one
    or two bytes is padded. *)
Fixpoint Encode (src : list byte) : list byte :=
  match src with
  | [] => []
  | [s0] =>
      let val := Z.shiftl (Z_of_byte s0) 16 in
      [ code (Z.land (Z.shiftr val 18) 0x3F); code (Z.land (Z.shiftr val 12) 0x3F);
        StdPadding; StdPadding ]
  | [s0; s1] =>
      let val := Z.lor (Z.shiftl (Z_of_byte s0) 16) (Z.shiftl (Z_of_byte s1) 8) in
      [ code (Z.land (Z.shiftr val 18) 0x3F); code (Z.land (Z.shiftr val 12) 0x3F);
        code (Z.land (Z.shiftr val 6) 0x3F); StdPadding ]
  | s0 :: s1 :: s2 :: rest =>
      let val := Z.lor (Z.lor (Z.shiftl (Z_of_byte s0) 16) (Z.shiftl (Z_of_byte s1) 8))
                       (Z_of_byte s2) in
      code (Z.land (Z.shiftr val 18) 0x3F) :: code (Z.land (Z.shiftr val 12) 0x3F)
      :: code (Z.land (Z.shiftr val 6) 0x3F) :: code (Z.land val 0x3F)
      :: Encode rest
  end.

Definition EncodeToString (src : list byte) : string :=
  string_of_bytes (Encode src).

End base64.

(** ** The signer *)

(** [sign] of [fix_client.go]. *)
Definition sign (timestamp msgType seqNum accessKey targetCompID passphrase secret : string)
  : string :=
  let message := timestamp +:+ msgType +:+ seqNum +:+ accessKey +:+ targetCompID +:+ passphrase in
  let h := hmac.New sha256_New (bytes_of_string secret) in
  let h := hmac.Write h (bytes_of_string message) in
  base64.EncodeToString (hmac.Sum h []).

(** ** strconv, fmt and time *)

(** [strconv.Itoa] and [fmt.Sprintf("%d", x)]: the decimal numeral, with a
    leading minus sign for a negative number. *)
Definition Itoa (z : Z) : string := NilZero.string_of_int (Z.to_int z).

(** [appendInt(b, x, width)] of [time/format.go] and [%0<width>d]: the
    numeral, zero-padded on the left to [width] digits. *)
Definition pad_left (width : nat) (s : string) : string :=
  string_of_list_ascii (repeat "0"%char (width - String.length s)) +:+ s.

Definition appendInt (x : Z) (width : nat) : string :=
  if x <? 0 then "-" +:+ pad_left width (Itoa (- x)) else pad_left width (Itoa x).

(** A [time.Time] in UTC, as nanoseconds since the Unix epoch. *)
Definition Time : Type := Z.

(** [t.UnixNano()]: an [int64], so the count wraps. *)
Definition UnixNano (t : Time) : Z := (t + 2 ^ 63) mod 2 ^ 64 - 2 ^ 63.

(** The civil date of a day count since 1970-01-01 (proleptic Gregorian). *)
Definition civil_from_days (days : Z) : Z * Z * Z :=
  let z := days + 719468 in
  let era := z / 146097 in
  let doe := z - era * 146097 in
  let yoe := (doe - doe / 1460 + doe / 36524 - doe / 146096) / 365 in
  let doy := doe - (365 * yoe + yoe / 4 - yoe / 100) in
  let mp := (5 * doy + 2) / 153 in
  let d := doy - (153 * mp + 2) / 5 + 1 in
  let m := if mp <? 10 then mp + 3 else mp - 9 in
  let y := yoe + era * 400 in
  (if m <=? 2 then y + 1 else y, m, d).

(** [t.UTC().Format("20060102-15:04:05.000")] *)
Definition Format (t : Time) : string :=
  let secs := t / 1000000000 in
  let nsec := t mod 1000000000 in
  let '(y, m, d) := civil_from_days (secs / 86400) in
  let rem := secs mod 86400 in
  appendInt y 4 +:+ appendInt m 2 +:+ appendInt d 2 +:+ "-"
  +:+ appendInt (rem / 3600) 2 +:+ ":" +:+ appendInt (rem mod 3600 / 60) 2
  +:+ ":" +:+ appendInt (rem mod 60) 2 +:+ "." +:+ appendInt (nsec / 1000000) 3.

(** ** quickfix: field maps and messages

    After [field_map.go], [message.go] and [session_id.go] of the engine:
    a field map holds one value per tag, a message is three field maps and,
    when it was parsed from the wire, its raw bytes. *)

(** A [quickfix.Tag] is an [int]. *)
Definition tagBeginString : Z := 8.
Definition tagBodyLength : Z := 9.
Definition tagMsgType : Z := 35.
Definition tagCheckSum : Z := 10.

Inductive MessageRejectError :=
| ConditionallyRequiredFieldMissing (tag : Z).

(** [m.SetField(tag, FIXString(v))]: sets the field, replacing a former value. *)
Definition SetField (tag : Z) (v : string) (m : gmap Z string) : gmap Z string :=
  <[tag := v]> m.

(** [m.GetField(tag, &v)] for a [FIXString] [v]: on a missing tag the
    variable keeps its value and the error names the tag. *)
Definition GetField (m : gmap Z string) (tag : Z) (v : string)
  : string * option MessageRejectError :=
  match m !! tag with
  | Some f => (f, None)
  | None => (v, Some (ConditionallyRequiredFieldMissing tag))
  end.

(** [m.GetString(tag)] *)
Definition GetString (m : gmap Z string) (tag : Z) : string * option MessageRejectError :=
  GetField m tag "".

Record Message := MkMessage {
  Header : gmap Z string;
  Body : gmap Z string;
  Trailer : gmap Z string;
  rawMessage : option string
}.

(** [quickfix.NewMessage()] *)
Definition NewMessage : Message := MkMessage ∅ ∅ ∅ None.

Definition SOH : string := String "001" "".

(** The bytes of one field, [tag=value<SOH>]. *)
Definition TagValue (tv : Z * string) : string := Itoa tv.1 +:+ "=" +:+ tv.2 +:+ SOH.

(** [tv.total()] and [tv.length()] *)
Definition tv_total (tv : Z * string) : Z :=
  fold_right (fun b acc => Z_of_byte b + acc) 0 (bytes_of_string (TagValue tv)).
Definition tv_length (tv : Z * string) : Z := Z.of_nat (String.length (TagValue tv)).

(** [m.total()]: the check sum tag does not contribute. *)
Definition fm_total (m : gmap Z string) : Z :=
  fold_right (fun tv acc => if bool_decide (tv.1 = tagCheckSum) then acc else tv_total tv + acc)
             0 (map_to_list m).

(** [m.length()]: begin string, body length and check sum do not contribute. *)
Definition fm_length (m : gmap Z string) : Z :=
  fold_right (fun tv acc =>
                if bool_decide (tv.1 = tagBeginString ∨ tv.1 = tagBodyLength ∨ tv.1 = tagCheckSum)
                then acc else tv_length tv + acc)
             0 (map_to_list m).

(** The three field orders of [field_map.go] / [message.go]. *)
Definition normalFieldOrder (i j : Z) : bool := i <? j.

Definition headerFieldOrdering (i j : Z) : bool :=
  let ordering (t : Z) : Z :=
    if bool_decide (t = tagBeginString) then 1
    else if bool_decide (t = tagBodyLength) then 2
    else if bool_decide (t = tagMsgType) then 3
    else 2 ^ 32 - 1 in
  if ordering i <? ordering j then true
  else if ordering j <? ordering i then false
  else i <? j.

Definition trailerFieldOrdering (i j : Z) : bool :=
  if bool_decide (i = tagCheckSum) then false
  else if bool_decide (j = tagCheckSum) then true
  else i <? j.

Section Sorting.
Context {A : Type} (lt : A -> A -> bool).

Fixpoint insert_sorted (x : A) (l : list A) : list A :=
  match l with
  | [] => [x]
  | y :: l' => if lt y x then y :: insert_sorted x l' else x :: l
  end.

Definition sort_by (l : list A) : list A := fold_right insert_sorted [] l.
End Sorting.

(** [m.write(buffer)]: the fields in the map's tag order. *)
Definition fm_write (lt : Z -> Z -> bool) (m : gmap Z string) : string :=
  fold_right (fun tv acc => TagValue tv +:+ acc) ""
             (sort_by (fun a b => lt a.1 b.1) (map_to_list m)).

(** [formatCheckSum]: [fmt.Sprintf("%03d", value)] *)
Definition formatCheckSum (value : Z) : string := appendInt value 3.

(** [m.cook()]: sets the body length, then the check sum. *)
Definition cook (m : Message) : Message :=
  let bodyLength := fm_length (Header m) + fm_length (Body m) + fm_length (Trailer m) in
  let header := SetField tagBodyLength (Itoa bodyLength) (Header m) in
  let checkSum := (fm_total header + fm_total (Body m) + fm_total (Trailer m)) mod 256 in
  MkMessage header (Body m) (SetField tagCheckSum (formatCheckSum checkSum) (Trailer m))
            (rawMessage m).

(** [m.build()] *)
Definition build (m : Message) : string * Message :=
  let m := cook m in
  (fm_write headerFieldOrdering (Header m) +:+ fm_write normalFieldOrder (Body m)
   +:+ fm_write trailerFieldOrdering (Trailer m), m).

(** [m.String()] ([message.go]): a message parsed from the wire answers
    with its raw bytes; any other message is built, [string(m.build())],
    and [build] starts with [m.cook()], which writes the body length into
    the header and the check sum into the trailer of the message itself.
    The result is the text and the message as the call leaves it. *)
Definition Message_String (m : Message) : string * Message :=
  match rawMessage m with
  | Some raw => (raw, m)
  | None => build m
  end.

Record SessionID := MkSessionID {
  BeginString : string;
  TargetCompID : string; TargetSubID : string; TargetLocationID : string;
  SenderCompID : string; SenderSubID : string; SenderLocationID : string;
  Qualifier : string
}.

Definition appendOptional (delim v : string) : string :=
  if bool_decide (v = "") then "" else delim +:+ v.

(** [s.String()] *)
Definition SessionID_String (s : SessionID) : string :=
  BeginString s +:+ ":" +:+ SenderCompID s
  +:+ appendOptional "/" (SenderSubID s) +:+ appendOptional "/" (SenderLocationID s)
  +:+ "->" +:+ TargetCompID s
  +:+ appendOptional "/" (TargetSubID s) +:+ appendOptional "/" (TargetLocationID s)
  +:+ appendOptional ":" (Qualifier s).

(** ** The process's world *)

(** What the client reads and writes outside its own variables: the clock
    ([time.Now], one reading per call of the client's), the environment
    ([os.Getenv]), the standard logger (one entry per call, the text after
    the logger's own date prefix, without the final newline) and the engine
    ([quickfix.SendToTarget]): the messages it has taken for sending,
    whether it refuses a message, and the header fields it sets on a
    message it takes (begin string, sender, target, sending time, sequence
    number: the engine's own, so the world gives them). *)
Record World := MkWorld {
  clock : nat -> Time;
  ticks : nat;
  environ : gmap string string;
  logged : list string;
  outbox : list (Message * SessionID);
  send_refused : Message -> SessionID -> option string;
  engine_header : Message -> SessionID -> list (Z * string)
}.

Definition M (A : Type) : Type := World -> A * World.

Definition ret {A} (a : A) : M A := fun w => (a, w).
Definition bind {A B} (c : M A) (k : A -> M B) : M B :=
  fun w => let '(a, w') := c w in k a w'.

Notation "x <- c ;; k" := (bind c (fun x => k))
  (at level 62, c at next level, right associativity).
Notation "c ;;; k" := (bind c (fun _ => k))
  (at level 62, right associativity).

(** [time.Now()] *)
Definition time_Now : M Time :=
  fun w => (clock w (ticks w),
            MkWorld (clock w) (S (ticks w)) (environ w) (logged w) (outbox w) (send_refused w)
                    (engine_header w)).

(** [os.Getenv(key)]: the empty string for an unset variable. *)
Definition os_Getenv (key : string) : M string :=
  fun w => (default "" (environ w !! key), w).

(** [log.Println(...)], given its operands joined by spaces: the logger's
    output is that text and the newline [Println] ends it with. *)
Definition log_Print (line : string) : M unit :=
  fun w => (tt, MkWorld (clock w) (ticks w) (environ w) (logged w ++ [line]) (outbox w)
                        (send_refused w) (engine_header w)).

(** A text less its final newline, when it ends in one. *)
Fixpoint chomp (s : string) : string :=
  match s with
  | EmptyString => EmptyString
  | String c EmptyString => if Ascii.eqb c "010" then EmptyString else s
  | String c s' => String c (chomp s')
  end.

(** [log.Printf(...)], given the formatted text: the logger ends its output
    with a newline only when the text does not end in one already, so the
    entry is the text less one final newline. *)
Definition log_Printf (text : string) : M unit := log_Print (chomp text).

(** The engine's part of [prepMessageForSend] before it calls the client:
    it sets its header fields on the message. *)
Definition fillDefaultHeader (w : World) (m : Message) (sid : SessionID) : Message :=
  MkMessage (fold_left (fun h tv => SetField tv.1 tv.2 h) (engine_header w m sid) (Header m))
            (Body m) (Trailer m) (rawMessage m).

(** [quickfix.SendToTarget(m, sessionID)] on a message of an application
    type, as the order is, for the application whose [ToApp] is [toApp]: the
    engine refuses the message with an error (it knows no such session), or
    it sets its header fields on it, calls the application's [ToApp] with
    it, and, unless that returns an error, builds the message and queues
    it, all before the call returns.  Storing the message cannot fail in
    the memory store [main] gives the engine. *)
Definition SendToTarget (toApp : Message -> SessionID -> M (Message * option string))
                        (m : Message) (sid : SessionID) : M (option string) :=
  fun w => match send_refused w m sid with
           | Some err => (Some err, w)
           | None =>
               let '(r, w') := toApp (fillDefaultHeader w m sid) sid w in
               match r.2 with
               | Some err => (Some err, w')
               | None =>
                   (None, MkWorld (clock w') (ticks w') (environ w') (logged w')
                                  (outbox w' ++ [(cook r.1, sid)]) (send_refused w')
                                  (engine_header w'))
               end
           end.

(** Printing a [*quickfix.Message] calls its [String] method, on the
    message itself. *)
Definition log_Println_msg (label : string) (m : Message) : M Message :=
  let '(s, m) := Message_String m in
  log_Print (label +:+ " " +:+ s) ;;; ret m.

(** ** The client *)

Record FixApplication := MkApp {
  ApiKey : string;
  ApiSecret : string;
  Passphrase : string;
  TargetCompId : string;
  PortfolioId : string;
  SessionId : SessionID
}.

Definition set_SessionId (a : FixApplication) (sid : SessionID) : FixApplication :=
  MkApp (ApiKey a) (ApiSecret a) (Passphrase a) (TargetCompId a) (PortfolioId a) sid.

(** [m.Header.SetField(tag, FIXString(v))] and [m.Body.SetField(tag, FIXString(v))]. *)
Definition Header_SetField (tag : Z) (v : string) (m : Message) : Message :=
  MkMessage (SetField tag v (Header m)) (Body m) (Trailer m) (rawMessage m).
Definition Body_SetField (tag : Z) (v : string) (m : Message) : Message :=
  MkMessage (Header m) (SetField tag v (Body m)) (Trailer m) (rawMessage m).

(** [createOrderMessage] *)
Definition createOrderMessage (symbol ordType side quantity limitPrice portfolioId : string)
  : M Message :=
  let order := NewMessage in
  (* Header fields *)
  let order := Header_SetField 35 "D" order in
  sender <- os_Getenv "SVC_ACCOUNTID" ;;
  let order := Header_SetField 49 sender order in
  let order := Header_SetField 56 "COIN" order in
  sendingTime <- time_Now ;;
  let order := Header_SetField 52 (Format sendingTime) order in
  (* Body fields *)
  now <- time_Now ;;
  let clientOrderId := Itoa (UnixNano now) in
  let order := Body_SetField 1 portfolioId order in
  let order := Body_SetField 11 clientOrderId order in
  let order := Body_SetField 55 symbol order in
  (* Order type, time in force, price, target strategy *)
  let order :=
    if bool_decide (ordType = "LIMIT") then
      let order := Body_SetField 40 "2" order in
      let order := Body_SetField 59 "1" order in
      let order := Body_SetField 44 limitPrice order in
      Body_SetField 847 "L" order
    else if bool_decide (ordType = "MARKET") then
      let order := Body_SetField 40 "1" order in
      let order := Body_SetField 59 "3" order in
      Body_SetField 847 "M" order
    else order in
  (* Side *)
  let order :=
    if bool_decide (side = "BUY")
    then Body_SetField 54 "1" order
    else Body_SetField 54 "2" order in
  (* Order quantity *)
  let order := Body_SetField 38 quantity order in
  log_Printf ("Order Message: ClOrdID=" +:+ clientOrderId +:+ " Symbol=" +:+ symbol
              +:+ " Side=" +:+ side +:+ " Quantity=" +:+ quantity
              +:+ " Price=" +:+ limitPrice) ;;;
  order <- log_Println_msg "Full FIX Message:" order ;;
  ret order.

(** [OnCreate] *)
Definition OnCreate (a : FixApplication) (sessionId : SessionID) : M FixApplication :=
  log_Print ("Session created: " +:+ SessionID_String sessionId) ;;;
  ret (set_SessionId a sessionId).

(** [ToApp] *)
Definition ToApp (a : FixApplication) (msg : Message) (sessionId : SessionID)
  : M (Message * option string) :=
  msg <- log_Println_msg "Sending App:" msg ;;
  ret (msg, None).

(** [OnLogon]; the engine that sends the order is the one the client was
    handed to, so the [ToApp] it calls is the client's own. *)
Definition OnLogon (a : FixApplication) (sessionId : SessionID) : M FixApplication :=
  log_Print (" Logged in: " +:+ SessionID_String sessionId) ;;;
  let a := set_SessionId a sessionId in
  order <- createOrderMessage "ETH-USD" "LIMIT" "BUY" "0.0015" "1001" (PortfolioId a) ;;
  order <- log_Println_msg "Raw FIX Message:" order ;;
  err <- SendToTarget (ToApp a) order sessionId ;;
  match err with
  | Some e => log_Print ("Failed to send order: " +:+ e)
  | None => log_Print "Order sent successfully!"
  end ;;;
  ret a.

(** [OnLogout] *)
Definition OnLogout (a : FixApplication) (sessionId : SessionID) : M unit :=
  log_Print ("Logged out: " +:+ SessionID_String sessionId).

(** [ToAdmin]; the message is changed in place, so the changed message is
    the result. *)
Definition ToAdmin (a : FixApplication) (msg : Message) (sessionId : SessionID) : M Message :=
  msg <- log_Println_msg "Sending Admin:" msg ;;
  let '(msgType, _) := GetString (Header msg) 35 in
  if bool_decide (msgType = "A") then
    now <- time_Now ;;
    let timestamp := Format now in
    let seqNum := "1" in
    let signature :=
      sign timestamp "A" seqNum (ApiKey a) (TargetCompId a) (Passphrase a) (ApiSecret a) in
    let msg := Body_SetField 1 (PortfolioId a) msg in
    let msg := Body_SetField 96 signature msg in
    let msg := Body_SetField 554 (Passphrase a) msg in
    let msg := Body_SetField 9406 "Y" msg in
    let msg := Body_SetField 9407 (ApiKey a) msg in
    ret msg
  else ret msg.

(** [FromAdmin] *)
Definition FromAdmin (a : FixApplication) (msg : Message) (sessionId : SessionID)
  : M (Message * option MessageRejectError) :=
  msg <- log_Println_msg "Received Admin:" msg ;;
  ret (msg, None).

(** The five local variables of [processExecutionReport]. *)
Record ExecutionReport := MkReport {
  execType : string;
  orderID : string;
  clOrdID : string;
  side : string;
  quantity : string
}.

(** The extraction of [processExecutionReport]: each variable starts empty
    and the error of each [GetField] is dropped. *)
Definition extractExecutionReport (msg : Message) : ExecutionReport :=
  let '(execType, _) := GetField (Body msg) 150 "" in
  let '(orderID, _) := GetField (Body msg) 37 "" in
  let '(clOrdID, _) := GetField (Body msg) 11 "" in
  let '(side, _) := GetField (Body msg) 54 "" in
  let '(quantity, _) := GetField (Body msg) 38 "" in
  MkReport execType orderID clOrdID side quantity.

(** [processExecutionReport] *)
Definition processExecutionReport (a : FixApplication) (msg : Message) : M unit :=
  let r := extractExecutionReport msg in
  log_Printf ("Execution Report: OrderID=" +:+ orderID r +:+ " ClOrdID=" +:+ clOrdID r
              +:+ " Side=" +:+ side r +:+ " Quantity=" +:+ quantity r
              +:+ " ExecType=" +:+ execType r).

(** [FromApp] *)
Definition FromApp (a : FixApplication) (msg : Message) (sessionId : SessionID)
  : M (Message * option MessageRejectError) :=
  msg <- log_Println_msg "Received App:" msg ;;
  let '(msgType, _) := GetString (Header msg) 35 in
  (if bool_decide (msgType = "8") then processExecutionReport a msg else ret tt) ;;;
  ret (msg, None).

(** ** The contracts of the specification, as the client realises them *)

(** A result that may be a failure. *)
Inductive outcome (E A : Type) : Type :=
| Returned (a : A)
| Failed (e : E).
Arguments Returned {E A} a.
Arguments Failed {E A} e.

Inductive ValidationError := MissingPrice | InvalidQuantity.
Inductive ParseError := MissingField (tag : Z).

(** The order builder is [createOrderMessage], whose only result is the
    message. *)
Definition buildOrder (symbol ordType side quantity limitPrice account : string)
  : M (outcome ValidationError Message) :=
  order <- createOrderMessage symbol ordType side quantity limitPrice account ;;
  ret (Returned order).

(** The execution-report parser is the extraction of
    [processExecutionReport], which has no error result. *)
Definition parseExecutionReport (msg : Message) : outcome ParseError ExecutionReport :=
  Returned (extractExecutionReport msg).

(** The keyed hash of RFC 2104 over SHA-256, in one formula:
    [H((K0 xor opad) || H((K0 xor ipad) || text))], where [K0] is the key,
    hashed first when longer than a block, then filled with zeros to a block. *)
Definition HMAC_SHA256 (key text : list byte) : list byte :=
  let k := if (64 <? List.length key)%nat then sha256.Sum256 key else key in
  let k0 := k ++ repeat x00 (64 - List.length k) in
  sha256.Sum256 (map (hmac.xor_byte 0x5c) k0
                 ++ sha256.Sum256 (map (hmac.xor_byte 0x36) k0 ++ text)).

(** ** Sample values *)

Definition sid0 : SessionID := MkSessionID "FIX.4.2" "COIN" "" "" "SVC" "" "" "".

Definition app0 : FixApplication := MkApp "key" "secret" "pass" "COIN" "PF-42" sid0.

(** An engine's header fields for a message of the session [sid]. *)
Definition engine0 (m : Message) (sid : SessionID) : list (Z * string) :=
  [(8, BeginString sid); (49, SenderCompID sid); (56, TargetCompID sid);
   (52, "20231114-22:13:20.125"); (34, "2")].

(** A world whose clock advances by one nanosecond per reading. *)
Definition w0 : World :=
  MkWorld (fun n => 1700000000123456789 + Z.of_nat n) 0 {["SVC_ACCOUNTID" := "svc"]}
          [] [] (fun _ _ => None) engine0.

(** A world whose clock stands still. *)
Definition w_still : World :=
  MkWorld (fun _ => 1700000000123456789) 0 {["SVC_ACCOUNTID" := "svc"]}
          [] [] (fun _ _ => None) engine0.

Definition logon0 : Message := MkMessage {[35 := "A"]} ∅ ∅ None.
Definition heartbeat0 : Message := MkMessage {[35 := "0"]} ∅ ∅ None.

(** ** The inputs of the signer, as one value *)

Record SignInput := MkSignInput {
  in_timestamp : string;
  in_msgType : string;
  in_seqNum : string;
  in_apiKey : string;
  in_targetCompId : string;
  in_passphrase : string;
  in_secret : string
}.

Definition sign_of (i : SignInput) : string :=
  sign (in_timestamp i) (in_msgType i) (in_seqNum i) (in_apiKey i) (in_targetCompId i)
       (in_passphrase i) (in_secret i).

(** The six plaintext components, in signing order, and all seven inputs. *)
Definition plaintext (i : SignInput) : list string :=
  [in_timestamp i; in_msgType i; in_seqNum i; in_apiKey i; in_targetCompId i; in_passphrase i].
Definition components (i : SignInput) : list string := plaintext i ++ [in_secret i].

(** The string [sign] hashes, and the digest it encodes. *)
Definition signing_string (i : SignInput) : string :=
  in_timestamp i +:+ in_msgType i +:+ in_seqNum i +:+ in_apiKey i +:+ in_targetCompId i
  +:+ in_passphrase i.
Definition digest_of (i : SignInput) : list byte :=
  HMAC_SHA256 (bytes_of_string (in_secret i)) (bytes_of_string (signing_string i)).

(** In how many positions two tuples differ. *)
Definition differing (l1 l2 : list string) : nat :=
  List.length (List.filter (fun p => negb (String.eqb p.1 p.2)) (combine l1 l2)).

(** The same inputs, with [n] zero bytes after the secret. *)
Definition zeros_after_secret (i : SignInput) (n : nat) : SignInput :=
  MkSignInput (in_timestamp i) (in_msgType i) (in_seqNum i) (in_apiKey i) (in_targetCompId i)
              (in_passphrase i) (in_secret i +:+ string_of_bytes (repeat x00 n)).

(** ** The engine's calls into the client *)

(** The body length [cook] writes into the header. *)
Definition bodyLength (m : Message) : Z :=
  fm_length (Header m) + fm_length (Body m) + fm_length (Trailer m).

(** One call of the engine into the [quickfix.Application]. *)
Inductive Callback :=
| CallOnCreate (sessionId : SessionID)
| CallOnLogon (sessionId : SessionID)
| CallOnLogout (sessionId : SessionID)
| CallToAdmin (msg : Message) (sessionId : SessionID)
| CallFromAdmin (msg : Message) (sessionId : SessionID)
| CallToApp (msg : Message) (sessionId : SessionID)
| CallFromApp (msg : Message) (sessionId : SessionID).

(** The client after the call, and the message as the call leaves it. *)
Definition run_callback (a : FixApplication) (c : Callback)
  : M (FixApplication * option Message) :=
  match c with
  | CallOnCreate sid => a' <- OnCreate a sid ;; ret (a', None)
  | CallOnLogon sid => a' <- OnLogon a sid ;; ret (a', None)
  | CallOnLogout sid => OnLogout a sid ;;; ret (a, None)
  | CallToAdmin msg sid => m <- ToAdmin a msg sid ;; ret (a, Some m)
  | CallFromAdmin msg sid => r <- FromAdmin a msg sid ;; ret (a, Some r.1)
  | CallToApp msg sid => r <- ToApp a msg sid ;; ret (a, Some r.1)
  | CallFromApp msg sid => r <- FromApp a msg sid ;; ret (a, Some r.1)
  end.

Fixpoint run_callbacks (a : FixApplication) (cs : list Callback)
  : M (FixApplication * list (option Message)) :=
  match cs with
  | [] => ret (a, [])
  | c :: cs' =>
      r <- run_callback a c ;;
      rs <- run_callbacks r.1 cs' ;;
      ret (rs.1, r.2 :: rs.2)
  end.

(** A message without its RawData field (tag 96), where a Logon carries
    the signature. *)
Definition without_signature (m : Message) : Message :=
  MkMessage (Header m) (delete 96 (Body m)) (Trailer m) (rawMessage m).

(** Whether [needle] occurs in [hay]. *)
Fixpoint contains (needle hay : string) : bool :=
  String.prefix needle hay
  || match hay with
     | EmptyString => false
     | String _ hay' => contains needle hay'
     end.

Definition sign_input0 : SignInput :=
  MkSignInput "20240102-03:04:05.678" "A" "1" "key" "COIN" "pass" "secret".

(** [sign_input0] with another sequence number. *)
Definition sign_input1 : SignInput :=
  MkSignInput "20240102-03:04:05.678" "A" "2" "key" "COIN" "pass" "secret".

(** An execution report without an OrderID (tag 37). *)
Definition report0 : Message :=
  MkMessage {[35 := "8"]}
            (<[150 := "0"]> (<[11 := "1700000000123456790"]> (<[54 := "1"]> {[38 := "0.0015"]})))
            ∅ (Some "raw").

(** The five authentication fields [ToAdmin] sets on a Logon, for the clock
    reading [t]. *)
Definition logonFields (a : FixApplication) (t : Time) (m : Message) : Message :=
  Body_SetField 9407 (ApiKey a)
    (Body_SetField 9406 "Y"
       (Body_SetField 554 (Passphrase a)
          (Body_SetField 96 (sign (Format t) "A" "1" (ApiKey a) (TargetCompId a)
                                  (Passphrase a) (ApiSecret a))
             (Body_SetField 1 (PortfolioId a) m)))).

(** [app0] with another secret. *)
Definition app_other : FixApplication :=
  MkApp "key" "another secret" "pass" "COIN" "PF-42" sid0.

(** A short session, as the engine drives it. *)
Definition session0 : list Callback :=
  [CallOnCreate sid0; CallToAdmin logon0 sid0; CallOnLogon sid0;
   CallToAdmin heartbeat0 sid0; CallFromApp report0 sid0; CallOnLogout sid0].

(** ** More of the serialiser and of the session *)

(** The check sum [cook] writes into the trailer. *)
Definition checkSum (m : Message) : Z :=
  (fm_total (Header m) + fm_total (Body m) + fm_total (Trailer m)) mod 256.

(** A message as [cook] leaves it: body length and check sum are those of
    its own fields. *)
Definition cooked (m : Message) : Prop :=
  Header m !! tagBodyLength = Some (Itoa (bodyLength m))
  /\ Trailer m !! tagCheckSum = Some (formatCheckSum (checkSum m)).

(** The world with more lines in its log. *)
Definition add_log (w : World) (lines : list string) : World :=
  MkWorld (clock w) (ticks w) (environ w) (logged w ++ lines) (outbox w) (send_refused w)
          (engine_header w).

(** The text [processExecutionReport] formats for a message. *)
Definition executionReportLine (msg : Message) : string :=
  "Execution Report: OrderID=" +:+ default "" (Body msg !! 37)
  +:+ " ClOrdID=" +:+ default "" (Body msg !! 11)
  +:+ " Side=" +:+ default "" (Body msg !! 54)
  +:+ " Quantity=" +:+ default "" (Body msg !! 38)
  +:+ " ExecType=" +:+ default "" (Body msg !! 150).

Definition is_logon (c : Callback) : bool :=
  match c with CallOnLogon _ => true | _ => false end.

(** How many of the calls are [OnLogon]. *)
Definition count_logons (cs : list Callback) : nat := List.length (List.filter is_logon cs).

(** The session ID the last [OnCreate] or [OnLogon] of [cs] announced, [s]
    when there was none. *)
Definition final_session (s : SessionID) (cs : list Callback) : SessionID :=
  fold_left (fun s c => match c with
                        | CallOnCreate sid | CallOnLogon sid => sid
                        | _ => s
                        end) cs s.

(** [w'] is a later state of the world [w]: same clock, environment and
    engine, the clock read further, log and outbox longer. *)
Definition extends (w w' : World) : Prop :=
  clock w' = clock w /\ environ w' = environ w /\ send_refused w' = send_refused w
  /\ (ticks w <= ticks w')%nat
  /\ logged w `prefix_of` logged w'
  /\ outbox w `prefix_of` outbox w'.

(** [P] on the [n] integers from [k] on. *)
Fixpoint all_from (k : Z) (n : nat) (P : Z -> bool) : bool :=
  match n with
  | O => true
  | S n' => P k && all_from (k + 1) n' P
  end.

(** Whether [civil_from_days] gives the [doe]-th day of the 400-year era
    that starts on 0000-03-01 a year of the era, a month and a day. *)
Definition era_day_ok (doe : Z) : bool :=
  let '(y, m, d) := civil_from_days (doe - 719468) in
  (0 <=? y) && (y <=? 400) && (1 <=? m) && (m <=? 12) && (1 <=? d) && (d <=? 31).

(** A Logon with a sequence number, a sending time and a body field. *)
Definition logon1 : Message :=
  MkMessage (<[52 := "20240102-03:04:05.678"]> (<[34 := "7"]> {[35 := "A"]}))
            {[98 := "0"]} ∅ None.

(** A secret of 70 bytes. *)
Definition long_secret : string :=
  "kkkkkkkkkkkkkkkkkkkkkkkkkkkkkkkkkkkkkkkkkkkkkkkkkkkkkkkkkkkkkkkkkkkkkk".

(** * Properties *)

(** ** The library models against known values *)

Example sha256_abc :
  sha256.Sum256 (bytes_of_string "abc") =
  map byte_of_Z
    [0xba;0x78;0x16;0xbf;0x8f;0x01;0xcf;0xea;0x41;0x41;0x40;0xde;0x5d;0xae;0x22;0x23;
     0xb0;0x03;0x61;0xa3;0x96;0x17;0x7a;0x9c;0xb4;0x10;0xff;0x61;0xf2;0x00;0x15;0xad].
Proof. vm_compute. reflexivity. Qed.

Example sha256_empty_prefix :
  firstn 4 (sha256.Sum256 []) = map byte_of_Z [0xe3;0xb0;0xc4;0x42].
Proof. vm_compute. reflexivity. Qed.

(** RFC 4231, test case 2, through [sign]. *)
Example sign_rfc4231_case2 :
  sign "what do ya want " "for" " nothing" "?" "" "" "Jefe"
  = "W9zBRr9gdU5qBCQmCJV1x1oAPwidJzmDnexYuWTsOEM=".
Proof. vm_compute. reflexivity. Qed.

Example sign_logon :
  sign_of sign_input0 = "v7R7bPf68iXY9qlgkaO7DxuOVuTsLcS1Aya1hpVdLmw=".
Proof. vm_compute. reflexivity. Qed.

(** A key longer than a block is hashed first. *)
Example sign_long_key :
  sign "20240102-03:04:05.678" "A" "1" "key" "COIN" "pass"
       "kkkkkkkkkkkkkkkkkkkkkkkkkkkkkkkkkkkkkkkkkkkkkkkkkkkkkkkkkkkkkkkkkkkkkk"
  = "binLA62npgdaSx7pg7p/xhwKqLJDfk7UBafd2/cQJDY=".
Proof. vm_compute. reflexivity. Qed.

Example base64_tails :
  base64.EncodeToString (bytes_of_string "f") = "Zg=="
  /\ base64.EncodeToString (bytes_of_string "fo") = "Zm8="
  /\ base64.EncodeToString (bytes_of_string "foobar") = "Zm9vYmFy"
  /\ base64.EncodeToString (map byte_of_Z [255; 254; 253; 0; 1]) = "//79AAE=".
Proof. vm_compute. repeat split. Qed.

Example Format_epoch : Format 0 = "19700101-00:00:00.000".
Proof. vm_compute. reflexivity. Qed.

Example Format_2023 : Format 1700000000123456789 = "20231114-22:13:20.123".
Proof. vm_compute. reflexivity. Qed.

Example Format_leap_eve : Format (1709164799 * 1000000000 + 999999999) = "20240228-23:59:59.999".
Proof. vm_compute. reflexivity. Qed.

Example Format_leap_day : Format (951782400 * 1000000000) = "20000229-00:00:00.000".
Proof. vm_compute. reflexivity. Qed.

Example Format_before_epoch : Format (-1) = "19691231-23:59:59.999".
Proof. vm_compute. reflexivity. Qed.

(** ** The signer *)

Lemma block1_length h p : List.length (sha256.block1 h p) = 8%nat.
Proof. unfold sha256.block1. by destruct (fold_left _ _ _). Qed.

Lemma block_length fuel h p :
  List.length h = 8%nat -> List.length (sha256.block fuel h p) = 8%nat.
Proof.
  revert h p. induction fuel as [|fuel IH]; intros h p Hh; simpl; [done|].
  destruct (_ <? _)%nat; [done|]. apply IH, block1_length.
Qed.

(** The fuel [Sum256] gives [block], the length of the padded message,
    is enough: more fuel changes nothing. *)
Lemma block_enough_fuel fuel : forall k h p,
  (List.length p <= fuel)%nat -> sha256.block (fuel + k) h p = sha256.block fuel h p.
Proof.
  induction fuel as [|fuel IH]; intros k h p Hp.
  - destruct p; [|simpl in Hp; lia]. by destruct k.
  - cbn [Nat.add sha256.block].
    destruct (Nat.ltb_spec (List.length p) sha256.BlockSize); [done|].
    apply IH. rewrite length_skipn. unfold sha256.BlockSize in *. lia.
Qed.

Lemma be_bytes_length n x : List.length (sha256.be_bytes n x) = n.
Proof. unfold sha256.be_bytes. by rewrite length_map, length_rev, length_seq. Qed.

Lemma Sum256_length data : List.length (sha256.Sum256 data) = sha256.Size.
Proof.
  unfold sha256.Sum256.
  pose proof (block_length (List.length (data ++ sha256.padding (List.length data)))
                sha256.init (data ++ sha256.padding (List.length data)) eq_refl) as H.
  destruct (sha256.block _ _ _) as [|a [|b [|c [|d [|e [|f [|g [|h [|]]]]]]]]]; try discriminate H.
  reflexivity.
Qed.

Lemma copy_into_short n key :
  (List.length key <= n)%nat -> hmac.copy_into n key = key ++ repeat x00 (n - List.length key).
Proof. intros H. unfold hmac.copy_into. by rewrite firstn_all2. Qed.

Lemma hmac_is_HMAC key text :
  hmac.Sum (hmac.Write (hmac.New sha256_New key) text) [] = HMAC_SHA256 key text.
Proof.
  unfold HMAC_SHA256, hmac.New, sha256_New, hash_New. cbn [hash_block_size].
  change sha256.BlockSize with 64%nat.
  destruct (64 <? List.length key)%nat eqn:Hlen.
  - unfold hmac.Sum, hmac.Write, hash_Sum, hash_Write, hash_Reset.
    cbn [hmac.inner hmac.outer hmac.opad hmac.ipad hash_sum hash_block_size written
         List.length firstn skipn app].
    rewrite !copy_into_short by (rewrite Sum256_length; unfold sha256.Size; lia).
    reflexivity.
  - apply Nat.ltb_ge in Hlen.
    unfold hmac.Sum, hmac.Write, hash_Sum, hash_Write, hash_Reset.
    cbn [hmac.inner hmac.outer hmac.opad hmac.ipad hash_sum hash_block_size written
         List.length firstn skipn app].
    rewrite !copy_into_short by done. reflexivity.
Qed.


(** C1: for every timestamp, message type, sequence number, API key,
    target company ID, passphrase and secret, [sign] returns the base64
    encoding of the HMAC-SHA256 digest, keyed by the secret, of the six
    plaintext components concatenated in that order. *)
Theorem sign_is_base64_hmac_sha256
  (timestamp msgType seqNum apiKey targetCompId passphrase secret : string) :
  sign timestamp msgType seqNum apiKey targetCompId passphrase secret
  = base64.EncodeToString
      (HMAC_SHA256 (bytes_of_string secret)
         (bytes_of_string
            (timestamp +:+ msgType +:+ seqNum +:+ apiKey +:+ targetCompId +:+ passphrase))).
Proof. unfold sign. by rewrite hmac_is_HMAC. Qed.

(** *** Strings and bytes *)

Lemma bytes_of_string_app s1 s2 :
  bytes_of_string (s1 +:+ s2) = bytes_of_string s1 ++ bytes_of_string s2.
Proof.
  unfold bytes_of_string, list_byte_of_string.
  induction s1 as [|c s1 IH]; simpl; [done|]. by rewrite IH.
Qed.

Lemma bytes_of_string_inj s1 s2 : bytes_of_string s1 = bytes_of_string s2 -> s1 = s2.
Proof.
  intros H. apply (f_equal string_of_list_byte) in H.
  unfold bytes_of_string in H. by rewrite !string_of_list_byte_of_string in H.
Qed.

Lemma string_of_bytes_inj b1 b2 : string_of_bytes b1 = string_of_bytes b2 -> b1 = b2.
Proof.
  intros H. apply (f_equal list_byte_of_string) in H.
  unfold string_of_bytes in H. by rewrite !list_byte_of_string_of_list_byte in H.
Qed.

Lemma bytes_of_string_of_bytes b : bytes_of_string (string_of_bytes b) = b.
Proof. apply list_byte_of_string_of_list_byte. Qed.

Lemma append_inv_head p s1 s2 : p +:+ s1 = p +:+ s2 -> s1 = s2.
Proof.
  intros H. apply bytes_of_string_inj.
  apply (f_equal bytes_of_string) in H. rewrite !bytes_of_string_app in H.
  by apply app_inv_head in H.
Qed.

Lemma append_inv_tail s1 s2 t : s1 +:+ t = s2 +:+ t -> s1 = s2.
Proof.
  intros H. apply bytes_of_string_inj.
  apply (f_equal bytes_of_string) in H. rewrite !bytes_of_string_app in H.
  by apply app_inv_tail in H.
Qed.

Lemma HMAC_SHA256_key_zeros key n text :
  (List.length key + n <= 64)%nat ->
  HMAC_SHA256 (key ++ repeat x00 n) text = HMAC_SHA256 key text.
Proof.
  intros H. unfold HMAC_SHA256.
  assert (Hlen : List.length (key ++ repeat x00 n) = (List.length key + n)%nat)
    by (by rewrite length_app, repeat_length).
  destruct (Nat.ltb_spec 64 (List.length (key ++ repeat x00 n))); [lia|].
  destruct (Nat.ltb_spec 64 (List.length key)); [lia|].
  cbv zeta. rewrite Hlen, <- app_assoc, <- repeat_app.
  replace (n + (64 - (List.length key + n)))%nat with (64 - List.length key)%nat by lia.
  reflexivity.
Qed.

Lemma bytes_of_string_length s : List.length (bytes_of_string s) = String.length s.
Proof.
  unfold bytes_of_string, list_byte_of_string.
  induction s as [|c s IH]; simpl; [done|]. by rewrite IH.
Qed.

(** *** base64 is injective *)

Lemma Z_of_byte_range b : 0 <= Z_of_byte b < 256.
Proof.
  unfold Z_of_byte. pose proof (Byte.to_N_bounded b) as H.
  lia.
Qed.

Lemma Z_of_byte_inj a b : Z_of_byte a = Z_of_byte b -> a = b.
Proof.
  unfold Z_of_byte. intros H. apply N2Z.inj in H.
  apply (f_equal Byte.of_N) in H. rewrite !Byte.of_to_N in H. congruence.
Qed.

Lemma land_mul_pow2_low hi lo k :
  0 <= k -> 0 <= lo < 2 ^ k -> Z.land (hi * 2 ^ k) lo = 0.
Proof.
  intros Hk Hlo. apply Z.bits_inj'. intros n Hn.
  rewrite Z.land_spec, Z.bits_0.
  destruct (Z.lt_ge_cases n k).
  - by rewrite Z.mul_pow2_bits_low by lia.
  - replace lo with (lo mod 2 ^ k) by (apply Z.mod_small; lia).
    rewrite Z.mod_pow2_bits_high by lia. apply andb_false_r.
Qed.

Lemma lor_mul_pow2_add hi lo k :
  0 <= k -> 0 <= lo < 2 ^ k -> Z.lor (hi * 2 ^ k) lo = hi * 2 ^ k + lo.
Proof.
  intros Hk Hlo. pose proof (land_mul_pow2_low hi lo k Hk Hlo) as H0.
  rewrite <- Z.lxor_lor by done. symmetry. by apply Z.add_nocarry_lxor.
Qed.

Lemma encodeStd_NoDup : NoDup base64.encodeStd.
Proof. apply (bool_decide_unpack _). by vm_compute. Qed.

Lemma code_inj v1 v2 :
  0 <= v1 < 64 -> 0 <= v2 < 64 -> base64.code v1 = base64.code v2 -> v1 = v2.
Proof.
  intros H1 H2 H. unfold base64.code in H.
  pose proof (proj1 (List.NoDup_nth base64.encodeStd x00)
                (proj1 (NoDup_ListNoDup _) encodeStd_NoDup) (Z.to_nat v1) (Z.to_nat v2)) as Hi.
  change (List.length base64.encodeStd) with 64%nat in Hi.
  specialize (Hi ltac:(lia) ltac:(lia) H). lia.
Qed.

Lemma code_not_padding v : 0 <= v < 64 -> base64.code v <> base64.StdPadding.
Proof.
  intros Hv Heq. unfold base64.code in Heq.
  assert (Hin : In base64.StdPadding base64.encodeStd).
  { rewrite <- Heq. apply nth_In. change (List.length base64.encodeStd) with 64%nat. lia. }
  apply list_elem_of_In in Hin. revert Hin.
  apply (bool_decide_unpack (base64.StdPadding ∉ base64.encodeStd)). by vm_compute.
Qed.

Lemma group3_value a b c :
  Z.lor (Z.lor (Z.shiftl (Z_of_byte a) 16) (Z.shiftl (Z_of_byte b) 8)) (Z_of_byte c)
  = Z_of_byte a * 65536 + Z_of_byte b * 256 + Z_of_byte c.
Proof.
  pose proof (Z_of_byte_range a). pose proof (Z_of_byte_range b).
  pose proof (Z_of_byte_range c).
  rewrite !Z.shiftl_mul_pow2 by lia.
  rewrite (lor_mul_pow2_add _ _ 16) by lia.
  replace (Z_of_byte a * 2 ^ 16 + Z_of_byte b * 2 ^ 8)
    with ((Z_of_byte a * 256 + Z_of_byte b) * 2 ^ 8) by lia.
  rewrite (lor_mul_pow2_add _ _ 8) by lia. lia.
Qed.

Lemma group2_value a b :
  Z.lor (Z.shiftl (Z_of_byte a) 16) (Z.shiftl (Z_of_byte b) 8)
  = Z_of_byte a * 65536 + Z_of_byte b * 256.
Proof.
  pose proof (Z_of_byte_range a). pose proof (Z_of_byte_range b).
  rewrite !Z.shiftl_mul_pow2 by lia.
  rewrite (lor_mul_pow2_add _ _ 16) by lia. lia.
Qed.

Lemma group1_value a : Z.shiftl (Z_of_byte a) 16 = Z_of_byte a * 65536.
Proof. rewrite Z.shiftl_mul_pow2 by lia. lia. Qed.

Lemma sextet_div v i : 0 <= i -> Z.land (Z.shiftr v i) 0x3F = (v / 2 ^ i) mod 64.
Proof.
  intros Hi. rewrite Z.shiftr_div_pow2 by done.
  change 0x3F with (Z.ones 6). by rewrite Z.land_ones.
Qed.

Lemma sextet0_mod v : Z.land v 0x3F = v mod 64.
Proof. change 0x3F with (Z.ones 6). by rewrite Z.land_ones. Qed.

Lemma sextet_range v i : 0 <= i -> 0 <= Z.land (Z.shiftr v i) 0x3F < 64.
Proof. intros Hi. rewrite sextet_div by done. apply Z.mod_pos_bound. lia. Qed.

Lemma sextet0_range v : 0 <= Z.land v 0x3F < 64.
Proof. rewrite sextet0_mod. apply Z.mod_pos_bound. lia. Qed.

Ltac byte_ranges :=
  repeat match goal with
         | b : byte |- _ =>
             lazymatch goal with
             | _ : 0 <= Z_of_byte b < 256 |- _ => fail
             | _ => pose proof (Z_of_byte_range b)
             end
         end.

Lemma Encode_inj l1 : forall l2, base64.Encode l1 = base64.Encode l2 -> l1 = l2.
Proof.
  induction l1 as [l1 IH] using (induction_ltof1 _ (@List.length byte)).
  unfold ltof in IH. intros l2 H.
  destruct l1 as [|a [|b [|c l1]]], l2 as [|a' [|b' [|c' l2]]];
    cbn [base64.Encode] in H; try discriminate H; try reflexivity.
  all: pose proof (f_equal (fun l => nth 0 l x00) H) as H0;
       pose proof (f_equal (fun l => nth 1 l x00) H) as H1;
       pose proof (f_equal (fun l => nth 2 l x00) H) as H2;
       pose proof (f_equal (fun l => nth 3 l x00) H) as H3;
       pose proof (f_equal (skipn 4) H) as Ht; clear H;
       cbn [nth skipn] in H0, H1, H2, H3, Ht.
  all: rewrite ?group3_value, ?group2_value, ?group1_value in *.
  all: try (exfalso; first
        [ symmetry in H2; revert H2; apply code_not_padding, sextet_range; lia
        | revert H2; apply code_not_padding, sextet_range; lia
        | symmetry in H3; revert H3; apply code_not_padding, sextet0_range
        | revert H3; apply code_not_padding, sextet0_range ]).
  - apply code_inj in H0, H1; try (apply sextet_range; lia).
    rewrite !sextet_div in * by lia. byte_ranges.
    f_equal. apply Z_of_byte_inj.
    change (2 ^ 18) with 262144 in *. change (2 ^ 12) with 4096 in *.
    Z.div_mod_to_equations. lia.
  - apply code_inj in H0, H1, H2; try (apply sextet_range; lia).
    rewrite !sextet_div in * by lia. byte_ranges.
    change (2 ^ 18) with 262144 in *. change (2 ^ 12) with 4096 in *.
    change (2 ^ 6) with 64 in *.
    assert (Z_of_byte a = Z_of_byte a' /\ Z_of_byte b = Z_of_byte b') as [Ea Eb]
      by (Z.div_mod_to_equations; lia).
    apply Z_of_byte_inj in Ea, Eb. by subst.
  - apply code_inj in H0, H1, H2, H3;
      try (apply sextet_range; lia); try apply sextet0_range.
    rewrite !sextet_div in * by lia. rewrite !sextet0_mod in *. byte_ranges.
    change (2 ^ 18) with 262144 in *. change (2 ^ 12) with 4096 in *.
    change (2 ^ 6) with 64 in *.
    assert (Z_of_byte a = Z_of_byte a' /\ Z_of_byte b = Z_of_byte b'
            /\ Z_of_byte c = Z_of_byte c') as (Ea & Eb & Ec)
      by (Z.div_mod_to_equations; lia).
    apply Z_of_byte_inj in Ea, Eb, Ec. subst.
    f_equal. f_equal. f_equal. apply IH; [simpl; lia | exact Ht].
Qed.

Lemma EncodeToString_inj b1 b2 :
  base64.EncodeToString b1 = base64.EncodeToString b2 -> b1 = b2.
Proof. intros H. by apply Encode_inj, string_of_bytes_inj. Qed.

(** *** What a signature depends on *)

Lemma sign_of_digest i : sign_of i = base64.EncodeToString (digest_of i).
Proof. unfold sign_of, sign, digest_of, signing_string. by rewrite hmac_is_HMAC. Qed.

Lemma digest_zeros_after_secret i n :
  (String.length (in_secret i) + n <= 64)%nat ->
  digest_of (zeros_after_secret i n) = digest_of i.
Proof.
  intros H. unfold digest_of, zeros_after_secret, signing_string.
  cbn [in_timestamp in_msgType in_seqNum in_apiKey in_targetCompId in_passphrase in_secret].
  rewrite bytes_of_string_app, bytes_of_string_of_bytes.
  apply HMAC_SHA256_key_zeros. by rewrite bytes_of_string_length.
Qed.

Lemma signing_string_one_change a b :
  differing (plaintext a) (plaintext b) = 1%nat -> signing_string a <> signing_string b.
Proof.
  destruct a as [t1 m1 n1 k1 c1 p1 x1], b as [t2 m2 n2 k2 c2 p2 x2].
  unfold differing, plaintext, signing_string.
  cbn [in_timestamp in_msgType in_seqNum in_apiKey in_targetCompId in_passphrase
       combine List.filter fst snd].
  destruct (String.eqb_spec t1 t2), (String.eqb_spec m1 m2), (String.eqb_spec n1 n2),
    (String.eqb_spec k1 k2), (String.eqb_spec c1 c2), (String.eqb_spec p1 p2);
    cbn [negb List.length]; intros H; try discriminate H; subst; intros E.
  all: repeat apply append_inv_head in E.
  all: try apply append_inv_tail in E.
  all: congruence.
Qed.

(** C8, as amended: [sign] is a function of its seven inputs; two tuples
    that differ in exactly one of the six plaintext components are signed
    over different strings; two signatures are equal exactly when the two
    HMAC-SHA256 digests are; and a secret followed by zero bytes, up to 64
    bytes in all, signs like the secret itself. *)
Theorem sign_sensitivity (a b : SignInput) :
  (a = b -> sign_of a = sign_of b)
  /\ (differing (plaintext a) (plaintext b) = 1%nat -> signing_string a <> signing_string b)
  /\ (sign_of a = sign_of b <-> digest_of a = digest_of b)
  /\ (forall n, (String.length (in_secret a) + n <= 64)%nat ->
                sign_of (zeros_after_secret a n) = sign_of a).
Proof.
  split; [by intros ->|]. split; [apply signing_string_one_change|]. split.
  - rewrite !sign_of_digest. split; [apply EncodeToString_inj | by intros ->].
  - intros n Hn. rewrite !sign_of_digest. by rewrite digest_zeros_after_secret.
Qed.

(** [sign_sensitivity] at [sign_input0], against itself and against
    [sign_input1], which has another sequence number. *)
Lemma sign_sensitivity_witness :
  sign_of sign_input0 = sign_of sign_input0
  /\ signing_string sign_input0 <> signing_string sign_input1
  /\ sign_of (zeros_after_secret sign_input0 3) = sign_of sign_input0.
Proof.
  split; [|split].
  - apply (proj1 (sign_sensitivity sign_input0 sign_input0)). reflexivity.
  - apply (proj1 (proj2 (sign_sensitivity sign_input0 sign_input1))). reflexivity.
  - apply (proj2 (proj2 (proj2 (sign_sensitivity sign_input0 sign_input0)))).
    simpl. lia.
Defined.

(** C8, as stated, fails: the secret and the secret followed by a zero byte
    differ in exactly one of the seven inputs and give the same signature. *)
Lemma sign_same_for_padded_secret :
  differing (components sign_input0) (components (zeros_after_secret sign_input0 1)) = 1%nat
  /\ sign_of sign_input0 = sign_of (zeros_after_secret sign_input0 1).
Proof. split; vm_compute; reflexivity. Qed.

(** ** Decimal numerals *)

Lemma Itoa_inj z1 z2 : Itoa z1 = Itoa z2 -> z1 = z2.
Proof.
  assert (Hnil : forall z, Z.to_int z <> Decimal.Pos Decimal.Nil
                           /\ Z.to_int z <> Decimal.Neg Decimal.Nil).
  { intros [|p|p]; split; try discriminate; intros [= H];
      by apply DecimalPos.Unsigned.to_uint_nonnil in H. }
  unfold Itoa. intros H. apply (f_equal NilZero.int_of_string) in H.
  destruct (Hnil z1), (Hnil z2). rewrite !NilZero.isi in H by done.
  injection H. apply DecimalZ.to_int_inj.
Qed.

(** ** The serialiser *)

Lemma Message_String_Body m : Body (Message_String m).2 = Body m.
Proof. unfold Message_String, build, cook. destruct (rawMessage m); reflexivity. Qed.

Lemma Message_String_Header m :
  Header (Message_String m).2 =
  match rawMessage m with
  | Some _ => Header m
  | None => <[tagBodyLength := Itoa (bodyLength m)]> (Header m)
  end.
Proof. unfold Message_String, build, cook. destruct (rawMessage m); reflexivity. Qed.

Lemma Message_String_Header_other m tag :
  tag <> tagBodyLength -> Header (Message_String m).2 !! tag = Header m !! tag.
Proof.
  intros Hne. rewrite Message_String_Header.
  destruct (rawMessage m); [done|]. by apply lookup_insert_ne.
Qed.

Lemma log_Println_msg_eq label m w :
  log_Println_msg label m w =
  ((Message_String m).2,
   MkWorld (clock w) (ticks w) (environ w)
           (logged w ++ [label +:+ " " +:+ (Message_String m).1]) (outbox w) (send_refused w)
           (engine_header w)).
Proof. unfold log_Println_msg. by destruct (Message_String m). Qed.

(** ** The order builder *)

Lemma createOrderMessage_Body symbol ordType side quantity limitPrice pf w :
  Body (createOrderMessage symbol ordType side quantity limitPrice pf w).1 =
  let b := <[55 := symbol]>
             (<[11 := Itoa (UnixNano (clock w (S (ticks w))))]> (<[1 := pf]> ∅)) in
  let b := if bool_decide (ordType = "LIMIT")
           then <[847 := "L"]> (<[44 := limitPrice]> (<[59 := "1"]> (<[40 := "2"]> b)))
           else if bool_decide (ordType = "MARKET")
                then <[847 := "M"]> (<[59 := "3"]> (<[40 := "1"]> b))
                else b in
  <[38 := quantity]> (<[54 := if bool_decide (side = "BUY") then "1" else "2"]> b).
Proof.
  unfold createOrderMessage, bind, ret, os_Getenv, time_Now, log_Printf, log_Print.
  cbn [ticks clock environ logged outbox send_refused engine_header].
  rewrite log_Println_msg_eq. cbn [fst]. rewrite Message_String_Body.
  repeat case_bool_decide; reflexivity.
Qed.

Lemma createOrderMessage_tag11 symbol ordType side quantity limitPrice pf w :
  Body (createOrderMessage symbol ordType side quantity limitPrice pf w).1 !! 11
  = Some (Itoa (UnixNano (clock w (S (ticks w))))).
Proof. rewrite createOrderMessage_Body. cbv zeta. repeat case_bool_decide; done. Qed.

Lemma createOrderMessage_tag38 symbol ordType side quantity limitPrice pf w :
  Body (createOrderMessage symbol ordType side quantity limitPrice pf w).1 !! 38
  = Some quantity.
Proof. rewrite createOrderMessage_Body. cbv zeta. apply lookup_insert_eq. Qed.

Lemma createOrderMessage_tag44 symbol ordType side quantity limitPrice pf w :
  Body (createOrderMessage symbol ordType side quantity limitPrice pf w).1 !! 44
  = if bool_decide (ordType = "LIMIT") then Some limitPrice else None.
Proof. rewrite createOrderMessage_Body. cbv zeta. repeat case_bool_decide; done. Qed.

Lemma createOrderMessage_tag59 symbol ordType side quantity limitPrice pf w :
  Body (createOrderMessage symbol ordType side quantity limitPrice pf w).1 !! 59
  = if bool_decide (ordType = "LIMIT") then Some "1"
    else if bool_decide (ordType = "MARKET") then Some "3" else None.
Proof. rewrite createOrderMessage_Body. cbv zeta. repeat case_bool_decide; done. Qed.

Lemma buildOrder_Returned symbol ordType side quantity limitPrice account w :
  (buildOrder symbol ordType side quantity limitPrice account w).1
  = Returned (createOrderMessage symbol ordType side quantity limitPrice account w).1.
Proof. unfold buildOrder, bind, ret. by destruct (createOrderMessage _ _ _ _ _ _ w). Qed.

(** C6: a Limit Buy order for "ETH-USD", quantity "0.0015", price "1001"
    carries in its body the Limit code (tag 40 = "2"), the Buy code (tag 54
    = "1"), the quantity (tag 38), the price (tag 44), and as client order
    ID (tag 11) the decimal rendering of a clock reading taken during this
    build. *)
Theorem limit_buy_order_fields pf w :
  let m := (createOrderMessage "ETH-USD" "LIMIT" "BUY" "0.0015" "1001" pf w).1 in
  Body m !! 40 = Some "2" /\ Body m !! 54 = Some "1" /\ Body m !! 38 = Some "0.0015"
  /\ Body m !! 44 = Some "1001"
  /\ Body m !! 11 = Some (Itoa (UnixNano (clock w (S (ticks w))))).
Proof.
  cbv zeta. rewrite createOrderMessage_tag11, createOrderMessage_tag38,
    createOrderMessage_tag44, createOrderMessage_Body.
  cbv zeta. repeat case_bool_decide; done.
Qed.

(** C4, as amended: a Market order omits the price (tag 44) and carries
    the time in force "3" (tag 59); the price is present exactly for Limit
    orders, the time in force for Limit ("1") and Market ("3") orders. *)
Theorem order_price_and_time_in_force symbol ordType side quantity limitPrice pf w :
  let m := (createOrderMessage symbol ordType side quantity limitPrice pf w).1 in
  Body m !! 44 = (if bool_decide (ordType = "LIMIT") then Some limitPrice else None)
  /\ Body m !! 59 = (if bool_decide (ordType = "LIMIT") then Some "1"
                     else if bool_decide (ordType = "MARKET") then Some "3" else None).
Proof. split; [apply createOrderMessage_tag44 | apply createOrderMessage_tag59]. Qed.

(** C4, as stated, fails: a Market order carries a time in force. *)
Lemma market_order_has_time_in_force :
  Body (createOrderMessage "ETH-USD" "MARKET" "BUY" "0.0015" "" "PF-42" w0).1 !! 59
  = Some "3".
Proof. vm_compute. reflexivity. Qed.

(** C2, as amended: building an order never fails: whatever the order
    type, price and quantity, a message is returned, with the quantity as
    given in tag 38 and, for a Limit order, the price as given (possibly
    empty) in tag 44. *)
Theorem buildOrder_always_returns symbol ordType side quantity limitPrice account w :
  exists m, (buildOrder symbol ordType side quantity limitPrice account w).1 = Returned m
       /\ Body m !! 38 = Some quantity
       /\ Body m !! 44 = (if bool_decide (ordType = "LIMIT") then Some limitPrice else None).
Proof.
  exists (createOrderMessage symbol ordType side quantity limitPrice account w).1.
  split; [apply buildOrder_Returned|].
  split; [apply createOrderMessage_tag38 | apply createOrderMessage_tag44].
Qed.

(** C2, as stated, fails: a Limit order without a price and an order of
    quantity zero are both built. *)
Lemma buildOrder_accepts_invalid_orders :
  (exists m, (buildOrder "ETH-USD" "LIMIT" "BUY" "0.0015" "" "PF-42" w0).1 = Returned m
        /\ Body m !! 44 = Some "")
  /\ (buildOrder "ETH-USD" "LIMIT" "BUY" "0.0015" "" "PF-42" w0).1 <> Failed MissingPrice
  /\ (exists m, (buildOrder "ETH-USD" "LIMIT" "BUY" "0" "1001" "PF-42" w0).1 = Returned m
        /\ Body m !! 38 = Some "0")
  /\ (buildOrder "ETH-USD" "LIMIT" "BUY" "0" "1001" "PF-42" w0).1 <> Failed InvalidQuantity.
Proof.
  rewrite !buildOrder_Returned. repeat split; try discriminate.
  - eexists. split; [reflexivity|]. vm_compute. reflexivity.
  - eexists. split; [reflexivity|]. vm_compute. reflexivity.
Qed.

(** C9, as amended: two order builds give the same client order ID exactly
    when the clock readings they take have the same [UnixNano]; the ID is
    unique as far as the clock's readings are. *)
Theorem client_order_id_follows_clock
  symbol1 ordType1 side1 quantity1 limitPrice1 pf1 w1
  symbol2 ordType2 side2 quantity2 limitPrice2 pf2 w2 :
  Body (createOrderMessage symbol1 ordType1 side1 quantity1 limitPrice1 pf1 w1).1 !! 11
  = Body (createOrderMessage symbol2 ordType2 side2 quantity2 limitPrice2 pf2 w2).1 !! 11
  <-> UnixNano (clock w1 (S (ticks w1))) = UnixNano (clock w2 (S (ticks w2))).
Proof.
  rewrite !createOrderMessage_tag11. split.
  - intros [= H]. by apply Itoa_inj.
  - by intros ->.
Qed.

(** C9, as stated, fails: two successive builds in a session whose clock
    does not advance between them get the same client order ID. *)
Lemma client_order_ids_collide :
  let r1 := createOrderMessage "ETH-USD" "LIMIT" "BUY" "0.0015" "1001" "PF-42" w_still in
  let r2 := createOrderMessage "BTC-USD" "MARKET" "SELL" "2" "" "PF-42" r1.2 in
  Body r1.1 !! 11 = Some "1700000000123456789"
  /\ Body r2.1 !! 11 = Some "1700000000123456789".
Proof. vm_compute. split; reflexivity. Qed.

(** ** Execution reports *)

Lemma extractExecutionReport_fields msg :
  extractExecutionReport msg =
  MkReport (default "" (Body msg !! 150)) (default "" (Body msg !! 37))
           (default "" (Body msg !! 11)) (default "" (Body msg !! 54))
           (default "" (Body msg !! 38)).
Proof.
  unfold extractExecutionReport, GetField.
  by destruct (Body msg !! 150), (Body msg !! 37), (Body msg !! 11),
    (Body msg !! 54), (Body msg !! 38).
Qed.

(** C3, as amended: parsing an execution report never fails: for every
    Message the five fields are returned, an absent field as the empty
    string. *)
Theorem parseExecutionReport_never_fails msg :
  parseExecutionReport msg =
    Returned (MkReport (default "" (Body msg !! 150)) (default "" (Body msg !! 37))
                       (default "" (Body msg !! 11)) (default "" (Body msg !! 54))
                       (default "" (Body msg !! 38))).
Proof. unfold parseExecutionReport. by rewrite extractExecutionReport_fields. Qed.

(** C3, as stated, fails: a report without the OrderID tag (37) is parsed,
    with an empty order ID, instead of failing. *)
Lemma report_without_OrderID_is_parsed :
  Body report0 !! 37 = None
  /\ parseExecutionReport report0
     = Returned (MkReport "0" "" "1700000000123456790" "1" "0.0015")
  /\ parseExecutionReport report0 <> Failed (MissingField 37).
Proof. split; [|split]; [vm_compute; reflexivity .. | discriminate]. Qed.

(** ** Outbound administrative messages *)

Lemma msgType_is_A (h : gmap Z string) :
  bool_decide ((GetString h 35).1 = "A") = bool_decide (h !! 35 = Some "A").
Proof.
  unfold GetString, GetField. destruct (h !! 35) as [v|]; cbn [fst].
  - apply bool_decide_ext. split; congruence.
  - apply bool_decide_ext. split; discriminate.
Qed.

Lemma ToAdmin_eq a msg sid w :
  ToAdmin a msg sid w =
  let m := (Message_String msg).2 in
  let l := logged w ++ ["Sending Admin:" +:+ " " +:+ (Message_String msg).1] in
  if bool_decide (Header msg !! 35 = Some "A")
  then (logonFields a (clock w (ticks w)) m,
        MkWorld (clock w) (S (ticks w)) (environ w) l (outbox w) (send_refused w)
                (engine_header w))
  else (m, MkWorld (clock w) (ticks w) (environ w) l (outbox w) (send_refused w)
                   (engine_header w)).
Proof.
  unfold ToAdmin, bind. rewrite log_Println_msg_eq.
  pose proof (msgType_is_A (Header (Message_String msg).2)) as Ht.
  rewrite Message_String_Header_other in Ht by done.
  destruct (GetString (Header (Message_String msg).2) 35) as [msgType e].
  cbn [fst] in Ht. cbv zeta. rewrite Ht.
  destruct (bool_decide (Header msg !! 35 = Some "A")); reflexivity.
Qed.

Lemma logonFields_Body a t m :
  Body (logonFields a t m) =
  <[9407 := ApiKey a]>
    (<[9406 := "Y"]>
       (<[554 := Passphrase a]>
          (<[96 := sign (Format t) "A" "1" (ApiKey a) (TargetCompId a) (Passphrase a)
                        (ApiSecret a)]>
             (<[1 := PortfolioId a]> (Body m))))).
Proof. reflexivity. Qed.

Lemma logonFields_Header a t m : Header (logonFields a t m) = Header m.
Proof. reflexivity. Qed.

Lemma ToAdmin_logon_Body a msg sid w :
  Header msg !! 35 = Some "A" ->
  Body (ToAdmin a msg sid w).1 = Body (logonFields a (clock w (ticks w)) msg).
Proof.
  intros H. rewrite ToAdmin_eq. cbv zeta. rewrite bool_decide_eq_true_2 by done.
  cbn [fst]. by rewrite !logonFields_Body, Message_String_Body.
Qed.

(** C7: for every outbound administrative Message of type Logon ("A"),
    [ToAdmin] puts into the body the portfolio ID (tag 1), the signature
    (tag 96), the passphrase (tag 554), the drop-copy flag "Y" (tag 9406)
    and the API key (tag 9407). *)
Theorem logon_authentication_fields a msg sid w :
  Header msg !! 35 = Some "A" ->
  let m := (ToAdmin a msg sid w).1 in
  Body m !! 1 = Some (PortfolioId a)
  /\ Body m !! 96 = Some (sign (Format (clock w (ticks w))) "A" "1" (ApiKey a)
                               (TargetCompId a) (Passphrase a) (ApiSecret a))
  /\ Body m !! 554 = Some (Passphrase a)
  /\ Body m !! 9406 = Some "Y"
  /\ Body m !! 9407 = Some (ApiKey a).
Proof.
  intros H. cbv zeta. rewrite ToAdmin_logon_Body, logonFields_Body by done.
  repeat split; by simplify_map_eq.
Qed.

(** [logon_authentication_fields] at the Logon [logon0]. *)
Lemma logon_authentication_fields_witness :
  Header logon0 !! 35 = Some "A"
  /\ Body (ToAdmin app0 logon0 sid0 w0).1 !! 9406 = Some "Y".
Proof.
  split; [reflexivity|].
  apply (logon_authentication_fields app0 logon0 sid0 w0). reflexivity.
Defined.

(** C10, as amended: on an outbound administrative Message whose type is
    not Logon, [ToAdmin] injects no field: the body is unchanged, and the
    header is unchanged but for the body length (tag 9), which printing a
    message under construction sets; a message that carries its raw bytes
    keeps its whole header. *)
Theorem ToAdmin_other_messages a msg sid w :
  Header msg !! 35 <> Some "A" ->
  let m := (ToAdmin a msg sid w).1 in
  Body m = Body msg
  /\ Header m = match rawMessage msg with
                | Some _ => Header msg
                | None => <[9 := Itoa (bodyLength msg)]> (Header msg)
                end
  /\ forall tag, tag <> 9 -> Header m !! tag = Header msg !! tag.
Proof.
  intros H. cbv zeta. rewrite ToAdmin_eq. cbv zeta.
  rewrite bool_decide_eq_false_2 by done. cbn [fst].
  split; [apply Message_String_Body|].
  split; [apply Message_String_Header|].
  intros tag Ht. by apply Message_String_Header_other.
Qed.

(** [ToAdmin_other_messages] at the Heartbeat [heartbeat0]. *)
Lemma ToAdmin_other_messages_witness :
  Header heartbeat0 !! 35 <> Some "A"
  /\ Body (ToAdmin app0 heartbeat0 sid0 w0).1 = Body heartbeat0.
Proof.
  assert (H : Header heartbeat0 !! 35 <> Some "A") by (vm_compute; discriminate).
  split; [exact H|].
  apply (ToAdmin_other_messages app0 heartbeat0 sid0 w0 H).
Defined.

(** C10, as stated, fails: a Heartbeat passed to [ToAdmin] comes back with
    a body length in its header. *)
Lemma ToAdmin_sets_body_length :
  Header heartbeat0 !! 35 = Some "0"
  /\ Header heartbeat0 !! 9 = None
  /\ Header (ToAdmin app0 heartbeat0 sid0 w0).1 !! 9 = Some "5".
Proof. vm_compute. repeat split. Qed.

(** ** Credentials over a run of the engine's calls *)

Lemma OnLogon_app a sid w : (OnLogon a sid w).1 = set_SessionId a sid.
Proof.
  unfold OnLogon, bind, ret, log_Print.
  destruct (createOrderMessage _ _ _ _ _ _ _) as [order w1].
  rewrite log_Println_msg_eq.
  destruct (SendToTarget _ _ _) as [[e|] w2]; reflexivity.
Qed.

Lemma OnLogon_world a1 a2 sid w :
  PortfolioId a1 = PortfolioId a2 -> (OnLogon a1 sid w).2 = (OnLogon a2 sid w).2.
Proof.
  intros H. unfold OnLogon, bind, ret, log_Print.
  cbn [PortfolioId set_SessionId]. rewrite H.
  destruct (createOrderMessage _ _ _ _ _ _ _) as [order w1].
  rewrite log_Println_msg_eq.
  destruct (SendToTarget _ _ _) as [[e|] w2]; reflexivity.
Qed.

Lemma run_callback_app a c w :
  (run_callback a c w).1.1 =
  match c with
  | CallOnCreate sid | CallOnLogon sid => set_SessionId a sid
  | _ => a
  end.
Proof.
  destruct c; cbn [run_callback]; unfold bind, ret.
  - reflexivity.
  - pose proof (OnLogon_app a sessionId w) as H.
    destruct (OnLogon a sessionId w). by cbn in *.
  - reflexivity.
  - by destruct (ToAdmin a msg sessionId w).
  - by destruct (FromAdmin a msg sessionId w).
  - by destruct (ToApp a msg sessionId w).
  - by destruct (FromApp a msg sessionId w).
Qed.

Lemma run_callback_credentials a c w :
  let a' := (run_callback a c w).1.1 in
  ApiKey a' = ApiKey a /\ Passphrase a' = Passphrase a /\ PortfolioId a' = PortfolioId a.
Proof. cbv zeta. rewrite run_callback_app. by destruct c. Qed.

Lemma run_callback_world a1 a2 c w :
  PortfolioId a1 = PortfolioId a2 -> (run_callback a1 c w).2 = (run_callback a2 c w).2.
Proof.
  intros H. destruct c; cbn [run_callback]; unfold bind, ret.
  - reflexivity.
  - pose proof (OnLogon_world a1 a2 sessionId w H) as Hw.
    destruct (OnLogon a1 sessionId w), (OnLogon a2 sessionId w). by cbn in *.
  - reflexivity.
  - rewrite !ToAdmin_eq. cbv zeta. by case_bool_decide.
  - change (FromAdmin a1 msg sessionId w) with (FromAdmin a2 msg sessionId w).
    by destruct (FromAdmin a2 msg sessionId w).
  - change (ToApp a1 msg sessionId w) with (ToApp a2 msg sessionId w).
    by destruct (ToApp a2 msg sessionId w).
  - change (FromApp a1 msg sessionId w) with (FromApp a2 msg sessionId w).
    by destruct (FromApp a2 msg sessionId w).
Qed.

Lemma without_signature_logonFields a1 a2 t m :
  ApiKey a1 = ApiKey a2 -> Passphrase a1 = Passphrase a2 -> PortfolioId a1 = PortfolioId a2 ->
  without_signature (logonFields a1 t m) = without_signature (logonFields a2 t m).
Proof.
  intros Hk Hp Hf. unfold without_signature.
  rewrite !logonFields_Body, !logonFields_Header. cbn [Trailer rawMessage logonFields Body_SetField].
  rewrite Hk, Hp, Hf.
  rewrite !(delete_insert_ne _ 96 9407), !(delete_insert_ne _ 96 9406),
    !(delete_insert_ne _ 96 554), !delete_insert_eq by done.
  reflexivity.
Qed.

Lemma run_callback_msg a1 a2 c w :
  ApiKey a1 = ApiKey a2 -> Passphrase a1 = Passphrase a2 -> PortfolioId a1 = PortfolioId a2 ->
  option_map without_signature (run_callback a1 c w).1.2
  = option_map without_signature (run_callback a2 c w).1.2.
Proof.
  intros Hk Hp Hf. destruct c; cbn [run_callback]; unfold bind, ret.
  - reflexivity.
  - by destruct (OnLogon a1 sessionId w), (OnLogon a2 sessionId w).
  - reflexivity.
  - rewrite !ToAdmin_eq. cbv zeta. case_bool_decide; cbn [fst snd option_map]; [|done].
    f_equal. by apply without_signature_logonFields.
  - change (FromAdmin a1 msg sessionId w) with (FromAdmin a2 msg sessionId w).
    by destruct (FromAdmin a2 msg sessionId w).
  - change (ToApp a1 msg sessionId w) with (ToApp a2 msg sessionId w).
    by destruct (ToApp a2 msg sessionId w).
  - change (FromApp a1 msg sessionId w) with (FromApp a2 msg sessionId w).
    by destruct (FromApp a2 msg sessionId w).
Qed.

Lemma run_callbacks_world cs : forall a1 a2 w,
  PortfolioId a1 = PortfolioId a2 -> (run_callbacks a1 cs w).2 = (run_callbacks a2 cs w).2.
Proof.
  induction cs as [|c cs IH]; intros a1 a2 w H; [reflexivity|].
  cbn [run_callbacks]. unfold bind, ret.
  pose proof (run_callback_world a1 a2 c w H) as Hw.
  pose proof (run_callback_credentials a1 c w) as (_ & _ & H1).
  pose proof (run_callback_credentials a2 c w) as (_ & _ & H2).
  destruct (run_callback a1 c w) as [r1 w1], (run_callback a2 c w) as [r2 w2].
  cbn [fst snd] in *. subst w2.
  specialize (IH r1.1 r2.1 w1 ltac:(congruence)).
  destruct (run_callbacks r1.1 cs w1), (run_callbacks r2.1 cs w1). exact IH.
Qed.

Lemma run_callbacks_msgs cs : forall a1 a2 w,
  ApiKey a1 = ApiKey a2 -> Passphrase a1 = Passphrase a2 -> PortfolioId a1 = PortfolioId a2 ->
  map (option_map without_signature) (run_callbacks a1 cs w).1.2
  = map (option_map without_signature) (run_callbacks a2 cs w).1.2.
Proof.
  induction cs as [|c cs IH]; intros a1 a2 w Hk Hp Hf; [reflexivity|].
  cbn [run_callbacks]. unfold bind, ret.
  pose proof (run_callback_world a1 a2 c w Hf) as Hw.
  pose proof (run_callback_msg a1 a2 c w Hk Hp Hf) as Hm.
  pose proof (run_callback_credentials a1 c w) as (K1 & P1 & F1).
  pose proof (run_callback_credentials a2 c w) as (K2 & P2 & F2).
  destruct (run_callback a1 c w) as [r1 w1], (run_callback a2 c w) as [r2 w2].
  cbn [fst snd] in *. subst w2.
  specialize (IH r1.1 r2.1 w1 ltac:(congruence) ltac:(congruence) ltac:(congruence)).
  destruct (run_callbacks r1.1 cs w1), (run_callbacks r2.1 cs w1).
  cbn [fst snd map] in *. by rewrite Hm, IH.
Qed.

(** C5, as amended: over any sequence of the engine's calls the client's
    log and its outbox are the same for any two credential sets with the
    same portfolio identifier, so the API secret, the API key and the
    passphrase are not logged; when the API key and the passphrase agree
    too, the messages the calls return are the same once the signature
    (tag 96) is taken out, so the secret reaches a message only through the
    signature; and the API key (tag 9407), the passphrase (tag 554) and
    the portfolio identifier (tag 1) are written as they are into the body
    of an outbound Logon. *)
Theorem credentials_in_log_and_messages a1 a2 cs w :
  PortfolioId a1 = PortfolioId a2 ->
  let r1 := run_callbacks a1 cs w in
  let r2 := run_callbacks a2 cs w in
  logged r1.2 = logged r2.2
  /\ outbox r1.2 = outbox r2.2
  /\ (ApiKey a1 = ApiKey a2 -> Passphrase a1 = Passphrase a2 ->
      map (option_map without_signature) r1.1.2
      = map (option_map without_signature) r2.1.2)
  /\ (forall msg sid w',
        Header msg !! 35 = Some "A" ->
        let m := (ToAdmin a1 msg sid w').1 in
        Body m !! 9407 = Some (ApiKey a1) /\ Body m !! 554 = Some (Passphrase a1)
        /\ Body m !! 1 = Some (PortfolioId a1)).
Proof.
  intros Hf. cbv zeta.
  rewrite (run_callbacks_world cs a1 a2 w Hf).
  split; [done|]. split; [done|]. split.
  - intros Hk Hp. by apply run_callbacks_msgs.
  - intros msg sid w' Ha. rewrite ToAdmin_logon_Body, logonFields_Body by done.
    repeat split; by simplify_map_eq.
Qed.

(** [credentials_in_log_and_messages] at two clients that differ in the
    secret, over the session [session0]. *)
Lemma credentials_in_log_and_messages_witness :
  PortfolioId app0 = PortfolioId app_other
  /\ logged (run_callbacks app0 session0 w0).2 = logged (run_callbacks app_other session0 w0).2
  /\ map (option_map without_signature) (run_callbacks app0 session0 w0).1.2
     = map (option_map without_signature) (run_callbacks app_other session0 w0).1.2
  /\ Body (ToAdmin app0 logon0 sid0 w0).1 !! 554 = Some (Passphrase app0).
Proof.
  pose proof (credentials_in_log_and_messages app0 app_other session0 w0 eq_refl)
    as (Hl & _ & Hm & Hb).
  split; [reflexivity|]. split; [exact Hl|]. split; [exact (Hm eq_refl eq_refl)|].
  exact (proj1 (proj2 (Hb logon0 sid0 w0 eq_refl))).
Defined.

(** C5, as stated, fails: the passphrase, the API key and the portfolio
    identifier are written into the outbound Logon, and the portfolio
    identifier is written to the log with the order. *)
Lemma credentials_leave_the_client :
  Body (ToAdmin app0 logon0 sid0 w0).1 !! 554 = Some (Passphrase app0)
  /\ Body (ToAdmin app0 logon0 sid0 w0).1 !! 9407 = Some (ApiKey app0)
  /\ Body (ToAdmin app0 logon0 sid0 w0).1 !! 1 = Some (PortfolioId app0)
  /\ existsb (contains (PortfolioId app0)) (logged (OnLogon app0 sid0 w0).2) = true.
Proof. vm_compute. repeat split. Qed.

(** * Further properties of the client *)

(** ** The shape of a signature *)

Lemma Encode_length l :
  List.length (base64.Encode l) = (4 * ((List.length l + 2) / 3))%nat.
Proof.
  induction l as [l IH] using (induction_ltof1 _ (@List.length byte)).
  unfold ltof in IH.
  destruct l as [|a [|b [|c l]]]; [reflexivity..|].
  cbn [base64.Encode List.length]. rewrite IH by (simpl; lia).
  replace (S (S (S (List.length l))) + 2)%nat with (1 * 3 + (List.length l + 2))%nat by lia.
  rewrite Nat.div_add_l by lia. lia.
Qed.

Lemma string_of_bytes_length l : String.length (string_of_bytes l) = List.length l.
Proof.
  rewrite <- (bytes_of_string_of_bytes l) at 2. by rewrite bytes_of_string_length.
Qed.

Lemma HMAC_SHA256_length key text : List.length (HMAC_SHA256 key text) = 32%nat.
Proof. unfold HMAC_SHA256. apply Sum256_length. Qed.

Lemma code_in_alphabet v : 0 <= v < 64 -> In (base64.code v) base64.encodeStd.
Proof.
  intros Hv. unfold base64.code. apply nth_In.
  change (List.length base64.encodeStd) with 64%nat. lia.
Qed.

Lemma Encode_alphabet l :
  Forall (fun b => In b base64.encodeStd \/ b = base64.StdPadding) (base64.Encode l).
Proof.
  induction l as [l IH] using (induction_ltof1 _ (@List.length byte)).
  unfold ltof in IH.
  assert (Hc : forall v i, 0 <= i ->
            In (base64.code (Z.land (Z.shiftr v i) 0x3F)) base64.encodeStd
            \/ base64.code (Z.land (Z.shiftr v i) 0x3F) = base64.StdPadding)
    by (intros v i Hi; left; by apply code_in_alphabet, sextet_range).
  assert (Hc0 : forall v,
            In (base64.code (Z.land v 0x3F)) base64.encodeStd
            \/ base64.code (Z.land v 0x3F) = base64.StdPadding)
    by (intros v; left; apply code_in_alphabet, sextet0_range).
  assert (Hp : In base64.StdPadding base64.encodeStd \/ base64.StdPadding = base64.StdPadding)
    by (by right).
  destruct l as [|a [|b [|c l]]]; cbn [base64.Encode].
  - constructor.
  - constructor; [by apply Hc|]. constructor; [by apply Hc|].
    constructor; [exact Hp|]. constructor; [exact Hp|]. constructor.
  - constructor; [by apply Hc|]. constructor; [by apply Hc|].
    constructor; [by apply Hc|]. constructor; [exact Hp|]. constructor.
  - constructor; [by apply Hc|]. constructor; [by apply Hc|].
    constructor; [by apply Hc|]. constructor; [by apply Hc0|].
    apply IH. simpl. lia.
Qed.

Lemma digest_encoding_shape (d : list byte) :
  List.length d = 32%nat ->
  exists body, base64.Encode d = body ++ [base64.StdPadding]
               /\ List.length body = 43%nat
               /\ Forall (fun b => In b base64.encodeStd) body.
Proof.
  intros H.
  do 32 (destruct d as [|? d]; [discriminate H|]).
  destruct d; [|discriminate H]. clear H.
  cbn [base64.Encode].
  match goal with |- exists _, ?L = _ /\ _ => exists (removelast L) end.
  cbn [removelast]. split; [|split].
  - reflexivity.
  - reflexivity.
  - repeat (apply List.Forall_cons;
            [first [apply code_in_alphabet, sextet_range; lia
                   | apply code_in_alphabet, sextet0_range]|]).
    apply List.Forall_nil.
Qed.

(** X1: a signature is 44 bytes long: 43 characters of the base64
    alphabet and one padding character ["="]. *)
Theorem sign_shape timestamp msgType seqNum apiKey targetCompId passphrase secret :
  exists body,
    bytes_of_string (sign timestamp msgType seqNum apiKey targetCompId passphrase secret)
    = body ++ [base64.StdPadding]
    /\ List.length body = 43%nat
    /\ Forall (fun b => In b base64.encodeStd) body.
Proof.
  unfold sign. rewrite hmac_is_HMAC. unfold base64.EncodeToString.
  rewrite bytes_of_string_of_bytes.
  apply digest_encoding_shape, HMAC_SHA256_length.
Qed.

(** X2: [sign] joins its six plaintext components without a separator,
    so moving text across the boundary of two neighbouring components
    leaves the signature unchanged. *)
Theorem sign_ignores_component_boundaries
  timestamp x msgType seqNum apiKey targetCompId passphrase secret :
  sign (timestamp +:+ x) msgType seqNum apiKey targetCompId passphrase secret
  = sign timestamp (x +:+ msgType) seqNum apiKey targetCompId passphrase secret
  /\ sign timestamp msgType seqNum apiKey (targetCompId +:+ x) passphrase secret
    = sign timestamp msgType seqNum apiKey targetCompId (x +:+ passphrase) secret.
Proof.
  unfold sign. rewrite !hmac_is_HMAC.
  split; do 2 f_equal; rewrite !bytes_of_string_app; by rewrite <- ?app_assoc.
Qed.

Lemma HMAC_SHA256_long_key key text :
  (64 < List.length key)%nat ->
  HMAC_SHA256 key text = HMAC_SHA256 (sha256.Sum256 key) text.
Proof.
  intros H. unfold HMAC_SHA256.
  destruct (Nat.ltb_spec 64 (List.length key)); [|lia].
  rewrite !Sum256_length. change (64 <? sha256.Size)%nat with false.
  cbv iota zeta. by rewrite !Sum256_length.
Qed.

(** X3: a secret longer than the 64-byte block signs like its SHA-256
    digest used as the secret. *)
Theorem sign_long_secret timestamp msgType seqNum apiKey targetCompId passphrase secret :
  (64 < String.length secret)%nat ->
  sign timestamp msgType seqNum apiKey targetCompId passphrase secret
  = sign timestamp msgType seqNum apiKey targetCompId passphrase
         (string_of_bytes (sha256.Sum256 (bytes_of_string secret))).
Proof.
  intros H. unfold sign. rewrite !hmac_is_HMAC, bytes_of_string_of_bytes.
  f_equal. apply HMAC_SHA256_long_key. by rewrite bytes_of_string_length.
Qed.

(** [sign_long_secret] at a secret of 70 bytes. *)
Lemma sign_long_secret_witness :
  (64 < String.length long_secret)%nat
  /\ sign "20240102-03:04:05.678" "A" "1" "key" "COIN" "pass" long_secret
     = sign "20240102-03:04:05.678" "A" "1" "key" "COIN" "pass"
            (string_of_bytes (sha256.Sum256 (bytes_of_string long_secret))).
Proof.
  assert (H : (64 < String.length long_secret)%nat) by (vm_compute; lia).
  split; [exact H|]. by apply sign_long_secret.
Defined.

(** ** The serialiser: fields that do not count *)

Section SkippedFields.
Context (skip : Z * string -> bool) (weight : Z * string -> Z).

Let step (tv : Z * string) (acc : Z) : Z := if skip tv then acc else weight tv + acc.

Lemma fold_skipped_perm l1 l2 :
  l1 ≡ₚ l2 -> fold_right step 0 l1 = fold_right step 0 l2.
Proof.
  intros H. apply (foldr_permutation_proper (=) step 0); [|done].
  intros a1 a2 b. unfold step. destruct (skip a1), (skip a2); lia.
Qed.

Lemma fold_skipped_insert (m : gmap Z string) k v :
  (forall u, skip (k, u) = true) ->
  fold_right step 0 (map_to_list (<[k := v]> m)) = fold_right step 0 (map_to_list m).
Proof.
  intros Hk.
  assert (Hd : fold_right step 0 (map_to_list (<[k := v]> m))
               = fold_right step 0 (map_to_list (delete k m))).
  { rewrite <- (insert_delete_eq m).
    rewrite (fold_skipped_perm _ _ (map_to_list_insert (delete k m) k v
                                      (lookup_delete_eq m k))).
    cbn [fold_right]. unfold step at 1. by rewrite Hk. }
  rewrite Hd. destruct (m !! k) as [u|] eqn:E.
  - rewrite <- (fold_skipped_perm _ _ (map_to_list_delete m k u E)).
    cbn [fold_right]. unfold step at 2. by rewrite Hk.
  - by rewrite delete_id.
Qed.
End SkippedFields.

Lemma fm_length_insert_skipped (m : gmap Z string) k v :
  k = tagBeginString \/ k = tagBodyLength \/ k = tagCheckSum ->
  fm_length (<[k := v]> m) = fm_length m.
Proof.
  intros Hk. unfold fm_length.
  apply (fold_skipped_insert
           (fun tv => bool_decide (tv.1 = tagBeginString \/ tv.1 = tagBodyLength
                                   \/ tv.1 = tagCheckSum)) tv_length).
  intros u. by apply bool_decide_eq_true_2.
Qed.

Lemma fm_total_insert_checksum (m : gmap Z string) v :
  fm_total (<[tagCheckSum := v]> m) = fm_total m.
Proof.
  unfold fm_total.
  apply (fold_skipped_insert (fun tv => bool_decide (tv.1 = tagCheckSum)) tv_total).
  intros u. by apply bool_decide_eq_true_2.
Qed.

Lemma bodyLength_cook m : bodyLength (cook m) = bodyLength m.
Proof.
  unfold bodyLength, cook, SetField. cbn [Header Body Trailer].
  rewrite !fm_length_insert_skipped by auto. reflexivity.
Qed.

Lemma cook_cooked m : cooked (cook m).
Proof.
  split.
  - rewrite bodyLength_cook. unfold cook, SetField. cbn [Header]. apply lookup_insert_eq.
  - unfold checkSum, cook, SetField. cbn [Header Body Trailer].
    rewrite fm_total_insert_checksum. apply lookup_insert_eq.
Qed.

Lemma cooked_cook m : cooked m -> cook m = m.
Proof.
  intros [Hl Hc]. destruct m as [h b t r]. unfold cook, SetField.
  cbn [Header Body Trailer rawMessage] in *.
  fold (bodyLength (MkMessage h b t r)). rewrite (insert_id h _ _ Hl).
  fold (checkSum (MkMessage h b t r)). by rewrite (insert_id t _ _ Hc).
Qed.

Lemma Message_String_again m :
  Message_String (Message_String m).2 = ((Message_String m).1, (Message_String m).2).
Proof.
  unfold Message_String. destruct (rawMessage m) as [raw|] eqn:E; cbn [fst snd].
  - by rewrite E.
  - unfold build. cbn [fst snd]. change (rawMessage (cook m)) with (rawMessage m).
    rewrite E. by rewrite (cooked_cook _ (cook_cooked m)).
Qed.

(** ** More on the order builder *)

Lemma createOrderMessage_run symbol ordType side quantity limitPrice pf w :
  exists draft,
    Header draft
    = <[52 := Format (clock w (ticks w))]>
        (<[56 := "COIN"]>
           (<[49 := default "" (environ w !! "SVC_ACCOUNTID")]> (<[35 := "D"]> ∅)))
    /\ Trailer draft = ∅
    /\ rawMessage draft = None
    /\ createOrderMessage symbol ordType side quantity limitPrice pf w
       = (cook draft,
          MkWorld (clock w) (S (S (ticks w))) (environ w)
                  (logged w
                   ++ [chomp ("Order Message: ClOrdID="
                              +:+ Itoa (UnixNano (clock w (S (ticks w))))
                              +:+ " Symbol=" +:+ symbol +:+ " Side=" +:+ side
                              +:+ " Quantity=" +:+ quantity +:+ " Price=" +:+ limitPrice);
                       "Full FIX Message:" +:+ " " +:+ (build draft).1])
                  (outbox w) (send_refused w) (engine_header w)).
Proof.
  unfold createOrderMessage, bind, ret, os_Getenv, time_Now, log_Printf, log_Print.
  cbn [ticks clock environ logged outbox send_refused engine_header].
  rewrite log_Println_msg_eq.
  match goal with |- context [Message_String ?d] => exists d end.
  repeat case_bool_decide.
  all: split; [reflexivity|]; split; [reflexivity|]; split; [reflexivity|].
  all: unfold Message_String; cbn [rawMessage Body_SetField Header_SetField NewMessage].
  all: cbn [fst snd ticks clock environ logged outbox send_refused engine_header].
  all: rewrite <- app_assoc; reflexivity.
Qed.

Lemma cook_Header_other m tag :
  tag <> tagBodyLength -> Header (cook m) !! tag = Header m !! tag.
Proof. intros H. unfold cook, SetField. cbn [Header]. by apply lookup_insert_ne. Qed.

(** X4: the header of a built order: type "D", the sender from the
    environment variable SVC_ACCOUNTID (empty when unset), target "COIN",
    the sending time formatted from the first clock reading, and the body
    length; no other header field is set and the order has no raw bytes. *)
Theorem order_header symbol ordType side quantity limitPrice pf w :
  let m := (createOrderMessage symbol ordType side quantity limitPrice pf w).1 in
  Header m !! 35 = Some "D"
  /\ Header m !! 49 = Some (default "" (environ w !! "SVC_ACCOUNTID"))
  /\ Header m !! 56 = Some "COIN"
  /\ Header m !! 52 = Some (Format (clock w (ticks w)))
  /\ dom (Header m) = ({[9; 35; 49; 52; 56]} : gset Z)
  /\ rawMessage m = None.
Proof.
  cbv zeta.
  destruct (createOrderMessage_run symbol ordType side quantity limitPrice pf w)
    as (draft & Hh & Ht & Hr & ->).
  cbn [fst]. rewrite !cook_Header_other by done. rewrite Hh.
  repeat split; try by simplify_map_eq.
  - unfold cook, SetField. cbn [Header]. rewrite Hh.
    rewrite !dom_insert_L, dom_empty_L. unfold tagBodyLength. set_solver.
Qed.

(** X5: the order comes back as its printing left it: the header carries
    the body length of the order's own fields, the trailer is exactly the
    check sum of them, the last log line is the text of the order, and
    printing the order again changes nothing. *)
Theorem order_is_cooked symbol ordType side quantity limitPrice pf w :
  let r := createOrderMessage symbol ordType side quantity limitPrice pf w in
  Header r.1 !! 9 = Some (Itoa (bodyLength r.1))
  /\ Trailer r.1 = {[10 := formatCheckSum (checkSum r.1)]}
  /\ last (logged r.2) = Some ("Full FIX Message: " +:+ (Message_String r.1).1)
  /\ (Message_String r.1).2 = r.1.
Proof.
  cbv zeta.
  destruct (createOrderMessage_run symbol ordType side quantity limitPrice pf w)
    as (draft & Hh & Ht & Hr & ->).
  cbn [fst snd logged].
  pose proof (cook_cooked draft) as [Hl Hc].
  assert (Hs : Message_String (cook draft) = ((build draft).1, cook draft)).
  { unfold Message_String. change (rawMessage (cook draft)) with (rawMessage draft).
    rewrite Hr. unfold build. cbn [fst]. by rewrite (cooked_cook _ (cook_cooked draft)). }
  split; [exact Hl|]. split.
  - apply map_eq. intros i. destruct (decide (i = 10)) as [->|Hi].
    + rewrite lookup_singleton_eq. exact Hc.
    + rewrite lookup_singleton_ne by done. unfold cook, SetField. cbn [Trailer].
      rewrite lookup_insert_ne by done. by rewrite Ht.
  - rewrite Hs. cbn [fst snd]. split; [|done].
    match goal with |- last (?l ++ [?x; ?y]) = _ =>
      change (l ++ [x; y]) with (l ++ [x] ++ [y]) end.
    by rewrite app_assoc, last_snoc.
Qed.

(** X6: a build reads the clock twice and writes two log lines, the
    first the text formatted from the client order ID, symbol, side,
    quantity and price, less its final newline when the price ends in one;
    it sends nothing and leaves the environment alone. *)
Theorem order_build_effects symbol ordType side quantity limitPrice pf w :
  let w' := (createOrderMessage symbol ordType side quantity limitPrice pf w).2 in
  ticks w' = S (S (ticks w))
  /\ clock w' = clock w /\ environ w' = environ w
  /\ outbox w' = outbox w /\ send_refused w' = send_refused w
  /\ exists text,
      logged w' =
      logged w ++ [chomp ("Order Message: ClOrdID="
                          +:+ Itoa (UnixNano (clock w (S (ticks w))))
                          +:+ " Symbol=" +:+ symbol +:+ " Side=" +:+ side
                          +:+ " Quantity=" +:+ quantity +:+ " Price=" +:+ limitPrice);
                   "Full FIX Message: " +:+ text].
Proof.
  cbv zeta.
  destruct (createOrderMessage_run symbol ordType side quantity limitPrice pf w)
    as (draft & Hh & Ht & Hr & ->).
  cbn [snd ticks clock environ outbox send_refused logged].
  repeat split. by eexists.
Qed.

(** X7: every side other than exactly "BUY" is sent as Sell (tag 54 =
    "2"). *)
Theorem order_side_defaults_to_sell symbol ordType side quantity limitPrice pf w :
  side <> "BUY" ->
  Body (createOrderMessage symbol ordType side quantity limitPrice pf w).1 !! 54 = Some "2".
Proof.
  intros H. rewrite createOrderMessage_Body. cbv zeta.
  rewrite (bool_decide_eq_false_2 (side = "BUY")) by done.
  by simplify_map_eq.
Qed.

(** [order_side_defaults_to_sell] at the side "buy". *)
Lemma order_side_defaults_to_sell_witness :
  "buy" <> "BUY"
  /\ Body (createOrderMessage "ETH-USD" "LIMIT" "buy" "0.0015" "1001" "PF-42" w0).1 !! 54
     = Some "2".
Proof.
  assert (H : "buy" <> "BUY") by discriminate.
  split; [exact H|]. by apply order_side_defaults_to_sell.
Defined.

(** X8: the body of a built order holds tags 1, 11, 38, 54, 55, with 40,
    44, 59, 847 for a Limit order, 40, 59, 847 for a Market order, and
    nothing more for any other order type, which so goes out without an
    order type; tag 1 is the portfolio ID and tag 55 the symbol. *)
Theorem order_body_tags symbol ordType side quantity limitPrice pf w :
  let m := (createOrderMessage symbol ordType side quantity limitPrice pf w).1 in
  dom (Body m)
  = ({[1; 11; 38; 54; 55]} : gset Z)
    ∪ (if bool_decide (ordType = "LIMIT") then {[40; 44; 59; 847]}
       else if bool_decide (ordType = "MARKET") then {[40; 59; 847]}
       else ∅)
  /\ Body m !! 1 = Some pf /\ Body m !! 55 = Some symbol
  /\ Body m !! 40 = (if bool_decide (ordType = "LIMIT") then Some "2"
                     else if bool_decide (ordType = "MARKET") then Some "1" else None)
  /\ Body m !! 847 = (if bool_decide (ordType = "LIMIT") then Some "L"
                      else if bool_decide (ordType = "MARKET") then Some "M" else None).
Proof.
  cbv zeta. rewrite createOrderMessage_Body. cbv zeta.
  repeat case_bool_decide; (split; [rewrite !dom_insert_L, dom_empty_L; set_solver|]);
    repeat split; by simplify_map_eq.
Qed.

Lemma Itoa_parse z : NilZero.int_of_string (Itoa z) = Some (Z.to_int z).
Proof.
  unfold Itoa. apply NilZero.isi.
  - destruct z; try discriminate. intros [= H].
    by apply DecimalPos.Unsigned.to_uint_nonnil in H.
  - destruct z; try discriminate. intros [= H].
    by apply DecimalPos.Unsigned.to_uint_nonnil in H.
Qed.

Lemma UnixNano_in_range t : - 2 ^ 63 <= t < 2 ^ 63 -> UnixNano t = t.
Proof. intros H. unfold UnixNano. rewrite Z.mod_small by lia. lia. Qed.

(** X9: for a clock reading within the [int64] range of nanoseconds, the
    client order ID read as a decimal numeral is that clock reading. *)
Theorem client_order_id_reads_back symbol ordType side quantity limitPrice pf w :
  - 2 ^ 63 <= clock w (S (ticks w)) < 2 ^ 63 ->
  exists id,
    Body (createOrderMessage symbol ordType side quantity limitPrice pf w).1 !! 11 = Some id
    /\ option_map Z.of_int (NilZero.int_of_string id) = Some (clock w (S (ticks w))).
Proof.
  intros H. eexists. split; [apply createOrderMessage_tag11|].
  rewrite Itoa_parse. cbn [option_map]. by rewrite DecimalZ.of_to, UnixNano_in_range.
Qed.

(** [client_order_id_reads_back] in the world [w0]. *)
Lemma client_order_id_reads_back_witness :
  exists id,
    Body (createOrderMessage "ETH-USD" "LIMIT" "BUY" "0.0015" "1001" "PF-42" w0).1 !! 11
    = Some id
    /\ option_map Z.of_int (NilZero.int_of_string id) = Some 1700000000123456790.
Proof.
  apply (client_order_id_reads_back "ETH-USD" "LIMIT" "BUY" "0.0015" "1001" "PF-42" w0).
  vm_compute. split; [discriminate|reflexivity].
Defined.

(** *** The text of a message holds its fields *)

Lemma prefix_append n s : String.prefix n (n +:+ s) = true.
Proof.
  induction n as [|c n IH]; [by destruct s|].
  change (String c n +:+ s) with (String c (n +:+ s)). cbn [String.prefix].
  destruct (ascii_dec c c); [exact IH|done].
Qed.

Lemma prefix_append_r n h s : String.prefix n h = true -> String.prefix n (h +:+ s) = true.
Proof.
  revert h. induction n as [|c n IH]; intros h H; [by destruct (h +:+ s)|].
  destruct h as [|d h]; [discriminate H|].
  change (String d h +:+ s) with (String d (h +:+ s)). cbn [String.prefix] in *.
  destruct (ascii_dec c d); [by apply IH|discriminate H].
Qed.

Lemma contains_String n c h :
  contains n (String c h) = String.prefix n (String c h) || contains n h.
Proof. reflexivity. Qed.

Lemma contains_append_l n p h : contains n h = true -> contains n (p +:+ h) = true.
Proof.
  intros H. induction p as [|c p IH]; [exact H|].
  change (String c p +:+ h) with (String c (p +:+ h)).
  rewrite contains_String, IH. apply orb_true_r.
Qed.

Lemma contains_append_r n h s : contains n h = true -> contains n (h +:+ s) = true.
Proof.
  induction h as [|c h IH]; intros H.
  - destruct n; [|discriminate H]. by destruct (""%string +:+ s).
  - change (String c h +:+ s) with (String c (h +:+ s)).
    rewrite contains_String in *. apply orb_true_iff in H as [H|H].
    + apply orb_true_iff. left. exact (prefix_append_r n (String c h) s H).
    + rewrite (IH H). apply orb_true_r.
Qed.

Lemma contains_self n s : contains n (n +:+ s) = true.
Proof.
  destruct (n +:+ s) as [|c t] eqn:E.
  - destruct n; [reflexivity|discriminate E].
  - rewrite contains_String, <- E, prefix_append. reflexivity.
Qed.

Lemma In_insert_sorted {A} (lt : A -> A -> bool) x y l :
  In y (insert_sorted lt x l) <-> y = x \/ In y l.
Proof.
  induction l as [|z l IH]; cbn; [intuition congruence|].
  destruct (lt z x); cbn; rewrite ?IH; intuition congruence.
Qed.

Lemma In_sort_by {A} (lt : A -> A -> bool) y l : In y (sort_by lt l) <-> In y l.
Proof.
  induction l as [|z l IH]; cbn; [done|].
  rewrite In_insert_sorted, IH. intuition congruence.
Qed.

Lemma fm_write_contains lt (m : gmap Z string) tag v :
  m !! tag = Some v -> contains (TagValue (tag, v)) (fm_write lt m) = true.
Proof.
  intros H. unfold fm_write.
  assert (Hin : In (tag, v) (sort_by (fun a b => lt a.1 b.1) (map_to_list m))).
  { apply In_sort_by, list_elem_of_In, elem_of_map_to_list, H. }
  induction (sort_by _ _) as [|tv l IH]; [destruct Hin|].
  cbn [fold_right]. destruct Hin as [->|Hin].
  - apply contains_self.
  - by apply contains_append_l, IH.
Qed.

Lemma build_contains_body m tag v :
  Body m !! tag = Some v -> contains (TagValue (tag, v)) (build m).1 = true.
Proof.
  intros H. unfold build. cbn [fst].
  apply contains_append_l, contains_append_r.
  change (Body (cook m)) with (Body m). by apply fm_write_contains.
Qed.

(** X10: every field of the built order's body, the portfolio ID among
    them, stands as [tag=value<SOH>] in the last log line of the build. *)
Theorem order_log_holds_body_fields symbol ordType side quantity limitPrice pf w :
  let r := createOrderMessage symbol ordType side quantity limitPrice pf w in
  forall tag v,
    Body r.1 !! tag = Some v ->
    exists line, last (logged r.2) = Some line /\ contains (TagValue (tag, v)) line = true.
Proof.
  cbv zeta. intros tag v.
  destruct (createOrderMessage_run symbol ordType side quantity limitPrice pf w)
    as (draft & Hh & Ht & Hr & ->).
  cbn [fst snd logged]. change (Body (cook draft)) with (Body draft). intros H.
  eexists. split.
  - match goal with |- last (?l ++ [?x; ?y]) = _ =>
      change (l ++ [x; y]) with (l ++ [x] ++ [y]) end.
    by rewrite app_assoc, last_snoc.
  - apply contains_append_l, contains_append_l. by apply build_contains_body.
Qed.

(** [order_log_holds_body_fields] at the portfolio ID (tag 1). *)
Lemma order_log_holds_body_fields_witness :
  exists line,
    last (logged (createOrderMessage "ETH-USD" "LIMIT" "BUY" "0.0015" "1001" "PF-42" w0).2)
    = Some line
    /\ contains (TagValue (1, "PF-42")) line = true.
Proof.
  apply (order_log_holds_body_fields "ETH-USD" "LIMIT" "BUY" "0.0015" "1001" "PF-42" w0).
  vm_compute. reflexivity.
Defined.

(** X11: the report extraction reads the builder's tags back: from a built
    order it takes the client order ID (11), the side code (54) and the
    quantity (38), and finds no execution type and no order ID. *)
Theorem report_extraction_reads_order symbol ordType side quantity limitPrice pf w :
  extractExecutionReport (createOrderMessage symbol ordType side quantity limitPrice pf w).1
  = MkReport "" "" (Itoa (UnixNano (clock w (S (ticks w)))))
             (if bool_decide (side = "BUY") then "1" else "2") quantity.
Proof.
  rewrite extractExecutionReport_fields, createOrderMessage_tag11, createOrderMessage_tag38.
  rewrite createOrderMessage_Body. cbv zeta.
  repeat case_bool_decide; by simplify_map_eq.
Qed.

Lemma order_String_fixed symbol ordType side quantity limitPrice pf w :
  let m := (createOrderMessage symbol ordType side quantity limitPrice pf w).1 in
  Message_String m = ((Message_String m).1, m).
Proof.
  cbv zeta.
  destruct (createOrderMessage_run symbol ordType side quantity limitPrice pf w)
    as (draft & Hh & Ht & Hr & ->).
  cbn [fst]. unfold Message_String. change (rawMessage (cook draft)) with (rawMessage draft).
  rewrite Hr. unfold build. cbn [fst snd]. by rewrite (cooked_cook _ (cook_cooked draft)).
Qed.

Lemma createOrderMessage_frame symbol ordType side quantity limitPrice pf w :
  let w' := (createOrderMessage symbol ordType side quantity limitPrice pf w).2 in
  clock w' = clock w /\ environ w' = environ w /\ outbox w' = outbox w
  /\ send_refused w' = send_refused w /\ engine_header w' = engine_header w.
Proof.
  cbv zeta.
  destruct (createOrderMessage_run symbol ordType side quantity limitPrice pf w)
    as (draft & Hh & Ht & Hr & ->).
  done.
Qed.

Lemma createOrderMessage_log symbol ordType side quantity limitPrice pf w :
  let r := createOrderMessage symbol ordType side quantity limitPrice pf w in
  logged r.2 =
  logged w ++ [chomp ("Order Message: ClOrdID=" +:+ Itoa (UnixNano (clock w (S (ticks w))))
                      +:+ " Symbol=" +:+ symbol +:+ " Side=" +:+ side
                      +:+ " Quantity=" +:+ quantity +:+ " Price=" +:+ limitPrice);
               "Full FIX Message: " +:+ (Message_String r.1).1]
  /\ ticks r.2 = S (S (ticks w)).
Proof.
  cbv zeta.
  pose proof (order_String_fixed symbol ordType side quantity limitPrice pf w) as Hs.
  cbv zeta in Hs.
  destruct (createOrderMessage_run symbol ordType side quantity limitPrice pf w)
    as (draft & Hh & Ht & Hr & E).
  rewrite E in *. cbn [fst snd logged ticks] in *. split; [|done].
  do 3 f_equal. unfold Message_String in Hs |- *.
  change (rawMessage (cook draft)) with (rawMessage draft) in *. rewrite Hr in *.
  unfold build in *. cbn [fst snd] in *.
  by rewrite (cooked_cook _ (cook_cooked draft)).
Qed.

(** ** More on outbound administrative messages *)

(** X12: on a Logon, [ToAdmin] touches the body only at tags 1, 96, 554,
    9406 and 9407, which it sets whatever was there; every other body
    field, every header field but the body length (9) and the raw bytes
    stay. *)
Theorem logon_keeps_other_fields a msg sid w :
  Header msg !! 35 = Some "A" ->
  let m := (ToAdmin a msg sid w).1 in
  (forall tag, tag <> 1 -> tag <> 96 -> tag <> 554 -> tag <> 9406 -> tag <> 9407 ->
               Body m !! tag = Body msg !! tag)
  /\ dom (Body m) = dom (Body msg) ∪ ({[1; 96; 554; 9406; 9407]} : gset Z)
  /\ (forall tag, tag <> 9 -> Header m !! tag = Header msg !! tag)
  /\ rawMessage m = rawMessage msg.
Proof.
  intros H. cbv zeta. split; [|split; [|split]].
  - intros tag H1 H2 H3 H4 H5. rewrite ToAdmin_logon_Body, logonFields_Body by done.
    by rewrite !lookup_insert_ne.
  - rewrite ToAdmin_logon_Body, logonFields_Body by done.
    rewrite !dom_insert_L. apply set_eq. intros x. set_unfold. tauto.
  - intros tag Ht. rewrite ToAdmin_eq. cbv zeta. rewrite bool_decide_eq_true_2 by done.
    cbn [fst]. rewrite logonFields_Header. by apply Message_String_Header_other.
  - rewrite ToAdmin_eq. cbv zeta. rewrite bool_decide_eq_true_2 by done. cbn [fst].
    unfold Message_String, build, cook. by destruct (rawMessage msg) eqn:E.
Qed.

(** [logon_keeps_other_fields] at [logon1] and its tag 98. *)
Lemma logon_keeps_other_fields_witness :
  Header logon1 !! 35 = Some "A"
  /\ Body (ToAdmin app0 logon1 sid0 w0).1 !! 98 = Body logon1 !! 98.
Proof.
  split; [reflexivity|].
  by apply (logon_keeps_other_fields app0 logon1 sid0 w0 eq_refl).
Defined.

(** X13: the Logon signature is a function of the client's credentials
    and of the clock reading alone: it does not depend on the message
    signed, its sequence number and sending time included. *)
Theorem logon_signature_ignores_message a msg1 msg2 sid1 sid2 w1 w2 :
  Header msg1 !! 35 = Some "A" -> Header msg2 !! 35 = Some "A" ->
  clock w1 (ticks w1) = clock w2 (ticks w2) ->
  Body (ToAdmin a msg1 sid1 w1).1 !! 96 = Body (ToAdmin a msg2 sid2 w2).1 !! 96.
Proof.
  intros H1 H2 Hc. rewrite !ToAdmin_logon_Body, !logonFields_Body by done.
  rewrite Hc. by simplify_map_eq.
Qed.

(** [logon_signature_ignores_message] at [logon0] and [logon1]. *)
Lemma logon_signature_ignores_message_witness :
  Body (ToAdmin app0 logon0 sid0 w0).1 !! 96 = Body (ToAdmin app0 logon1 sid0 w0).1 !! 96.
Proof.
  by apply (logon_signature_ignores_message app0 logon0 logon1 sid0 sid0 w0 w0).
Defined.

(** X14: a Logon that went through [ToAdmin] is still a Logon, and
    passing it through [ToAdmin] again gives the body a first pass at that
    time would have given. *)
Theorem ToAdmin_again a msg sid w sid' w' :
  Header msg !! 35 = Some "A" ->
  let m1 := (ToAdmin a msg sid w).1 in
  Header m1 !! 35 = Some "A"
  /\ Body (ToAdmin a m1 sid' w').1 = Body (ToAdmin a msg sid' w').1.
Proof.
  intros H. cbv zeta.
  assert (H1 : Header (ToAdmin a msg sid w).1 !! 35 = Some "A").
  { rewrite ToAdmin_eq. cbv zeta. rewrite bool_decide_eq_true_2 by done. cbn [fst].
    rewrite logonFields_Header. by rewrite Message_String_Header_other. }
  split; [exact H1|].
  rewrite (ToAdmin_logon_Body a _ sid' w' H1), (ToAdmin_logon_Body a msg sid' w' H).
  rewrite !logonFields_Body. rewrite (ToAdmin_logon_Body a msg sid w H), logonFields_Body.
  apply map_eq. intros i. rewrite !lookup_insert. by repeat case_decide.
Qed.

(** [ToAdmin_again] at [logon0]. *)
Lemma ToAdmin_again_witness :
  Body (ToAdmin app0 (ToAdmin app0 logon0 sid0 w0).1 sid0 (ToAdmin app0 logon0 sid0 w0).2).1
  = Body (ToAdmin app0 logon0 sid0 (ToAdmin app0 logon0 sid0 w0).2).1.
Proof.
  by apply (ToAdmin_again app0 logon0 sid0 w0 sid0 (ToAdmin app0 logon0 sid0 w0).2).
Defined.

(** X15: [ToAdmin] writes one log line, the text of the message as it
    was handed in, before any authentication field is set; it reads the
    clock once for a Logon and not at all otherwise, and sends nothing. *)
Theorem ToAdmin_effects a msg sid w :
  let w' := (ToAdmin a msg sid w).2 in
  logged w' = logged w ++ ["Sending Admin: " +:+ (Message_String msg).1]
  /\ ticks w' = (if bool_decide (Header msg !! 35 = Some "A") then S (ticks w) else ticks w)
  /\ clock w' = clock w /\ environ w' = environ w
  /\ outbox w' = outbox w /\ send_refused w' = send_refused w.
Proof.
  cbv zeta. rewrite ToAdmin_eq. cbv zeta. by case_bool_decide.
Qed.

(** ** Inbound messages *)

Lemma msgType_is_8 (h : gmap Z string) :
  bool_decide ((GetString h 35).1 = "8") = bool_decide (h !! 35 = Some "8").
Proof.
  unfold GetString, GetField. destruct (h !! 35) as [v|]; cbn [fst].
  - apply bool_decide_ext. split; congruence.
  - apply bool_decide_ext. split; discriminate.
Qed.

Lemma FromApp_eq a msg sid w :
  FromApp a msg sid w =
  (((Message_String msg).2, None),
   add_log w (("Received App: " +:+ (Message_String msg).1)
              :: if bool_decide (Header msg !! 35 = Some "8")
                 then [chomp (executionReportLine msg)] else [])).
Proof.
  unfold FromApp, bind, ret. rewrite log_Println_msg_eq.
  pose proof (msgType_is_8 (Header (Message_String msg).2)) as Ht.
  rewrite Message_String_Header_other in Ht by done.
  destruct (GetString (Header (Message_String msg).2) 35) as [msgType e].
  cbn [fst] in Ht. rewrite Ht.
  destruct (bool_decide (Header msg !! 35 = Some "8")).
  - unfold processExecutionReport, log_Printf, log_Print, add_log.
    rewrite extractExecutionReport_fields, Message_String_Body.
    cbn [execType orderID clOrdID side quantity clock ticks environ logged outbox
         send_refused engine_header].
    by rewrite <- app_assoc.
  - reflexivity.
Qed.

Lemma ToApp_eq a msg sid w :
  ToApp a msg sid w =
  (((Message_String msg).2, None),
   add_log w ["Sending App: " +:+ (Message_String msg).1]).
Proof. unfold ToApp, bind, ret. by rewrite log_Println_msg_eq. Qed.

(** X16: [FromApp] never rejects and keeps the body; it logs the message,
    and after it, exactly when the message type (tag 35) is "8", the
    execution report text less its final newline when the execution type
    ends in one; it neither reads the clock nor sends. *)
Theorem FromApp_behaviour a msg sid w :
  let r := FromApp a msg sid w in
  r.1.2 = None
  /\ Body r.1.1 = Body msg
  /\ logged r.2
     = logged w ++ ("Received App: " +:+ (Message_String msg).1)
                   :: (if bool_decide (Header msg !! 35 = Some "8")
                       then [chomp (executionReportLine msg)] else [])
  /\ ticks r.2 = ticks w /\ outbox r.2 = outbox w.
Proof.
  cbv zeta. rewrite FromApp_eq. cbn [fst snd add_log logged ticks outbox].
  by rewrite Message_String_Body.
Qed.

(** X17: a message that carries its raw bytes is logged as those bytes and
    handed back unchanged by [FromAdmin], [ToApp], [FromApp] (which logs the
    execution report after it when the type is "8") and, when it is not a
    Logon, [ToAdmin]. *)
Theorem raw_messages_are_untouched a msg raw sid w :
  rawMessage msg = Some raw ->
  FromAdmin a msg sid w = ((msg, None), add_log w ["Received Admin: " +:+ raw])
  /\ ToApp a msg sid w = ((msg, None), add_log w ["Sending App: " +:+ raw])
  /\ FromApp a msg sid w
     = ((msg, None),
        add_log w (("Received App: " +:+ raw)
                   :: if bool_decide (Header msg !! 35 = Some "8")
                      then [chomp (executionReportLine msg)] else []))
  /\ (Header msg !! 35 <> Some "A" ->
      ToAdmin a msg sid w = (msg, add_log w ["Sending Admin: " +:+ raw])).
Proof.
  intros E.
  assert (Hs : Message_String msg = (raw, msg)) by (unfold Message_String; by rewrite E).
  split; [|split; [|split]].
  - unfold FromAdmin, bind, ret. by rewrite log_Println_msg_eq, Hs.
  - by rewrite ToApp_eq, Hs.
  - by rewrite FromApp_eq, Hs.
  - intros H. rewrite ToAdmin_eq, Hs. cbv zeta. by rewrite bool_decide_eq_false_2.
Qed.

(** [raw_messages_are_untouched] at the report [report0]. *)
Lemma raw_messages_are_untouched_witness :
  rawMessage report0 = Some "raw"
  /\ (FromApp app0 report0 sid0 w0).1 = (report0, None).
Proof.
  split; [reflexivity|].
  pose proof (raw_messages_are_untouched app0 report0 "raw" sid0 w0 eq_refl)
    as (_ & _ & H & _).
  by rewrite H.
Defined.

(** ** A logon *)

Lemma chomp_append s t : t <> ""%string -> chomp (s +:+ t) = s +:+ chomp t.
Proof.
  intros Ht. induction s as [|c s IH]; [reflexivity|].
  change (String c s +:+ t) with (String c (s +:+ t)).
  change (String c s +:+ chomp t) with (String c (s +:+ chomp t)).
  destruct (s +:+ t) as [|d u] eqn:E.
  - destruct s; [|discriminate E]. by destruct Ht.
  - change (chomp (String c (String d u))) with (String c (chomp (String d u))).
    by rewrite IH.
Qed.

Lemma fillDefaultHeader_world w w' m sid :
  engine_header w = engine_header w' -> fillDefaultHeader w m sid = fillDefaultHeader w' m sid.
Proof. intros E. unfold fillDefaultHeader. by rewrite E. Qed.

Lemma fillDefaultHeader_raw w m sid :
  rawMessage (fillDefaultHeader w m sid) = rawMessage m.
Proof. reflexivity. Qed.

Lemma createOrderMessage_raw symbol ordType side quantity limitPrice pf w :
  rawMessage (createOrderMessage symbol ordType side quantity limitPrice pf w).1 = None.
Proof.
  destruct (createOrderMessage_run symbol ordType side quantity limitPrice pf w)
    as (draft & Hh & Ht & Hr & ->).
  exact Hr.
Qed.

Lemma Message_String_unbuilt m :
  rawMessage m = None -> cook (Message_String m).2 = cook m.
Proof.
  intros E. unfold Message_String. rewrite E. unfold build. cbn [snd].
  apply cooked_cook, cook_cooked.
Qed.

Lemma OnLogon_eq a sid w :
  let r := createOrderMessage "ETH-USD" "LIMIT" "BUY" "0.0015" "1001" (PortfolioId a)
             (add_log w [" Logged in: " +:+ SessionID_String sid]) in
  let prepared := fillDefaultHeader w r.1 sid in
  OnLogon a sid w =
  (set_SessionId a sid,
   match send_refused w r.1 sid with
   | Some e =>
       add_log r.2 ["Raw FIX Message: " +:+ (Message_String r.1).1;
                    "Failed to send order: " +:+ e]
   | None =>
       MkWorld (clock r.2) (ticks r.2) (environ r.2)
               (logged r.2 ++ ["Raw FIX Message: " +:+ (Message_String r.1).1;
                               "Sending App: " +:+ (Message_String prepared).1;
                               "Order sent successfully!"])
               (outbox r.2 ++ [(cook prepared, sid)]) (send_refused r.2)
               (engine_header r.2)
   end).
Proof.
  cbv zeta. unfold OnLogon, bind, ret, log_Print. cbn [PortfolioId set_SessionId].
  fold (add_log w [" Logged in: " +:+ SessionID_String sid]).
  pose proof (order_String_fixed "ETH-USD" "LIMIT" "BUY" "0.0015" "1001" (PortfolioId a)
                (add_log w [" Logged in: " +:+ SessionID_String sid])) as Hs.
  pose proof (createOrderMessage_frame "ETH-USD" "LIMIT" "BUY" "0.0015" "1001" (PortfolioId a)
                (add_log w [" Logged in: " +:+ SessionID_String sid]))
    as (Hc & He & Ho & Hr & Hh).
  pose proof (createOrderMessage_raw "ETH-USD" "LIMIT" "BUY" "0.0015" "1001" (PortfolioId a)
                (add_log w [" Logged in: " +:+ SessionID_String sid])) as Hraw.
  cbn [add_log clock environ outbox send_refused engine_header] in *.
  destruct (createOrderMessage _ _ _ _ _ _ _) as [order w1]. cbn [fst snd] in *.
  rewrite log_Println_msg_eq, Hs. cbn [fst snd].
  unfold SendToTarget. cbn [add_log send_refused clock ticks environ logged outbox engine_header].
  rewrite Hr.
  destruct (send_refused w order sid) as [e|].
  - unfold add_log. cbn [fst snd clock ticks environ logged outbox send_refused engine_header].
    by rewrite <- app_assoc, Hr.
  - rewrite (fillDefaultHeader_world _ w) by exact Hh. rewrite ToApp_eq.
    cbn [fst snd add_log clock ticks environ logged outbox send_refused engine_header].
    rewrite (Message_String_unbuilt (fillDefaultHeader w order sid)) by exact Hraw.
    by rewrite <- !app_assoc.
Qed.

(** X18: [OnLogon] records the session ID, builds the Limit Buy order and
    hands it to the engine. When the engine refuses it, nothing is sent and
    five lines are logged, the last one the error. Otherwise the engine
    fills the header, calls [ToApp], which logs the message, and queues the
    message with its body length and check sum: six lines are logged,
    "Sending App:" before "Order sent successfully!". Two clock readings
    are taken either way. *)
Theorem OnLogon_sends_one_order a sid w :
  let order := (createOrderMessage "ETH-USD" "LIMIT" "BUY" "0.0015" "1001" (PortfolioId a)
                  (add_log w [" Logged in: " +:+ SessionID_String sid])).1 in
  let prepared := fillDefaultHeader w order sid in
  let built :=
    [" Logged in: " +:+ SessionID_String sid;
     "Order Message: ClOrdID=" +:+ Itoa (UnixNano (clock w (S (ticks w))))
     +:+ " Symbol=ETH-USD Side=BUY Quantity=0.0015 Price=1001";
     "Full FIX Message: " +:+ (Message_String order).1;
     "Raw FIX Message: " +:+ (Message_String order).1] in
  let r := OnLogon a sid w in
  r.1 = set_SessionId a sid
  /\ outbox r.2 = (match send_refused w order sid with
                   | Some _ => outbox w
                   | None => outbox w ++ [(cook prepared, sid)]
                   end)
  /\ logged r.2 =
     logged w ++ built
     ++ (match send_refused w order sid with
         | Some e => ["Failed to send order: " +:+ e]
         | None => ["Sending App: " +:+ (Message_String prepared).1;
                    "Order sent successfully!"]
         end)
  /\ ticks r.2 = S (S (ticks w)).
Proof.
  cbv zeta. rewrite OnLogon_eq. cbv zeta.
  pose proof (createOrderMessage_log "ETH-USD" "LIMIT" "BUY" "0.0015" "1001" (PortfolioId a)
                (add_log w [" Logged in: " +:+ SessionID_String sid])) as Hlog.
  pose proof (createOrderMessage_frame "ETH-USD" "LIMIT" "BUY" "0.0015" "1001" (PortfolioId a)
                (add_log w [" Logged in: " +:+ SessionID_String sid]))
    as (Hc & He & Ho & Hr & Hh).
  cbv zeta in Hlog.
  assert (Hch : forall s t,
             chomp (s +:+ t +:+ " Symbol=ETH-USD Side=BUY Quantity=0.0015 Price=1001")
             = s +:+ t +:+ " Symbol=ETH-USD Side=BUY Quantity=0.0015 Price=1001").
  { intros s t. rewrite chomp_append by (by destruct t). by rewrite chomp_append. }
  destruct (createOrderMessage _ _ _ _ _ _ _) as [order w1].
  cbn [fst snd add_log logged ticks clock outbox] in *. destruct Hlog as [Hlog Ht].
  split; [done|]. split; [by destruct (send_refused w order sid); cbn [add_log outbox]; rewrite ?Ho|].
  split; [|by destruct (send_refused w order sid)].
  destruct (send_refused w order sid); cbn [add_log logged]; rewrite Hlog, <- !app_assoc.
  all: cbn [app]; by rewrite (Hch "Order Message: ClOrdID=").
Qed.

(** ** Invariants of a session *)



Lemma extends_add_log w lines : extends w (add_log w lines).
Proof. repeat split; cbn; try done. by apply prefix_app_r. Qed.

Lemma run_callback_extends a c w : extends w (run_callback a c w).2.
Proof.
  destruct c; cbn [run_callback]; unfold bind, ret.
  - apply (extends_add_log w [_]).
  - pose proof (OnLogon_eq a sessionId w) as E. cbv zeta in E.
    pose proof (createOrderMessage_log "ETH-USD" "LIMIT" "BUY" "0.0015" "1001"
                  (PortfolioId a)
                  (add_log w [" Logged in: " +:+ SessionID_String sessionId])) as Hl.
    pose proof (createOrderMessage_frame "ETH-USD" "LIMIT" "BUY" "0.0015" "1001"
                  (PortfolioId a)
                  (add_log w [" Logged in: " +:+ SessionID_String sessionId]))
      as (Hc & He & Ho & Hr & Hh).
    cbv zeta in Hl. destruct (createOrderMessage _ _ _ _ _ _ _) as [order w1].
    cbn [fst snd add_log logged ticks clock environ outbox send_refused] in *.
    destruct Hl as [Hl Ht].
    rewrite E. cbn [snd].
    destruct (send_refused w order sessionId); repeat split;
      cbn [add_log clock environ send_refused ticks logged outbox]; try done; try lia.
    all: try (rewrite Hl, <- !app_assoc; by apply prefix_app_r).
    all: rewrite Ho; try done; by apply prefix_app_r.
  - apply (extends_add_log w [_]).
  - rewrite ToAdmin_eq. cbv zeta. case_bool_decide; cbn [snd].
    + repeat split; cbn; try done; try lia. by apply prefix_app_r.
    + apply (extends_add_log w [_]).
  - unfold FromAdmin, bind, ret. rewrite log_Println_msg_eq. apply (extends_add_log w [_]).
  - unfold ToApp, bind, ret. rewrite log_Println_msg_eq. apply (extends_add_log w [_]).
  - rewrite FromApp_eq. apply extends_add_log.
Qed.


Lemma run_callbacks_app a cs w :
  (run_callbacks a cs w).1.1 =
  fold_left (fun a c => match c with
                        | CallOnCreate sid | CallOnLogon sid => set_SessionId a sid
                        | _ => a
                        end) cs a.
Proof.
  revert a w. induction cs as [|c cs IH]; intros a w; [reflexivity|].
  cbn [run_callbacks fold_left]. unfold bind, ret.
  pose proof (run_callback_app a c w) as H1.
  destruct (run_callback a c w) as [r w1]. cbn [fst] in H1.
  specialize (IH r.1 w1). destruct (run_callbacks r.1 cs w1) as [rs w2].
  cbn [fst] in *. by rewrite IH, H1.
Qed.

(** X20: no call changes the credentials; the session ID is the one of
    the last [OnCreate] or [OnLogon], and [OnLogout] does not clear it. *)
Theorem session_keeps_credentials a cs w :
  let a' := (run_callbacks a cs w).1.1 in
  ApiKey a' = ApiKey a /\ ApiSecret a' = ApiSecret a /\ Passphrase a' = Passphrase a
  /\ TargetCompId a' = TargetCompId a /\ PortfolioId a' = PortfolioId a
  /\ SessionId a' = final_session (SessionId a) cs.
Proof.
  cbv zeta. rewrite run_callbacks_app. unfold final_session.
  revert a. induction cs as [|c cs IH]; intros a; [done|].
  cbn [fold_left]. destruct (IH (match c with
                                 | CallOnCreate sid | CallOnLogon sid => set_SessionId a sid
                                 | _ => a
                                 end)) as (H1 & H2 & H3 & H4 & H5 & H6).
  rewrite H1, H2, H3, H4, H5, H6. by destruct c.
Qed.

Lemma run_callback_outbox a c w :
  exists sent,
    outbox (run_callback a c w).2 = outbox w ++ sent
    /\ (List.length sent <= if is_logon c then 1 else 0)%nat
    /\ ((forall m sid, send_refused w m sid = None) ->
        List.length sent = if is_logon c then 1%nat else 0%nat).
Proof.
  destruct c; cbn [run_callback is_logon]; unfold bind, ret.
  2:{ rewrite OnLogon_eq. cbv zeta. cbn [snd].
      pose proof (createOrderMessage_frame "ETH-USD" "LIMIT" "BUY" "0.0015" "1001"
                    (PortfolioId a)
                    (add_log w [" Logged in: " +:+ SessionID_String sessionId]))
        as (_ & _ & Ho & _ & _).
      destruct (createOrderMessage _ _ _ _ _ _ _) as [order w1]. cbn [fst snd] in *.
      cbn [add_log outbox] in Ho.
      destruct (send_refused w order sessionId) eqn:E; cbn [add_log outbox]; rewrite Ho.
      - exists []. rewrite app_nil_r. repeat split; [cbn; lia|].
        intros Hn. by rewrite Hn in E.
      - eexists. split; [reflexivity|]. by split. }
  all: exists []; rewrite app_nil_r; split; [|by split].
  - reflexivity.
  - reflexivity.
  - rewrite ToAdmin_eq. cbv zeta. by case_bool_decide.
  - unfold FromAdmin, bind, ret. by rewrite log_Println_msg_eq.
  - unfold ToApp, bind, ret. by rewrite log_Println_msg_eq.
  - by rewrite FromApp_eq.
Qed.

(** X21: a session sends at most one order per [OnLogon], and exactly one
    when the engine refuses none. *)
Theorem one_order_per_logon a cs w :
  (List.length (outbox (run_callbacks a cs w).2)
   <= List.length (outbox w) + count_logons cs)%nat
  /\ ((forall m sid, send_refused w m sid = None) ->
      List.length (outbox (run_callbacks a cs w).2)
      = (List.length (outbox w) + count_logons cs)%nat).
Proof.
  revert a w. induction cs as [|c cs IH]; intros a w.
  - cbn. split; [lia|]. intros _. unfold count_logons. cbn. lia.
  - cbn [run_callbacks]. unfold bind, ret.
    pose proof (run_callback_outbox a c w) as (sent & Ho & Hle & Heq).
    pose proof (run_callback_extends a c w) as (_ & _ & Hr & _).
    destruct (run_callback a c w) as [r w1]. cbn [snd] in *.
    specialize (IH r.1 w1). destruct (run_callbacks r.1 cs w1) as [rs w2].
    cbn [snd] in *. destruct IH as [IH1 IH2].
    rewrite Ho, length_app in IH1, IH2.
    unfold count_logons in *. cbn [List.filter].
    split.
    + destruct (is_logon c); cbn [List.length]; lia.
    + intros Hn. rewrite Hr in IH2. specialize (IH2 Hn). specialize (Heq Hn).
      destruct (is_logon c); cbn [List.length]; lia.
Qed.

(** ** The width of a timestamp *)

Lemma all_from_spec n : forall k P j,
  all_from k n P = true -> k <= j < k + Z.of_nat n -> P j = true.
Proof.
  induction n as [|n IH]; intros k P j H Hj; [lia|].
  cbn [all_from] in H. apply andb_true_iff in H as [H1 H2].
  destruct (Z.eq_dec j k) as [->|]; [done|]. apply (IH (k + 1)); [done|lia].
Qed.

Lemma appendInt_width2 x : 0 <= x < 100 -> String.length (appendInt x 2) = 2%nat.
Proof.
  intros H.
  apply Nat.eqb_eq.
  apply (all_from_spec (Z.to_nat 100) 0
           (fun x => Nat.eqb (String.length (appendInt x 2)) 2) x).
  - vm_compute. reflexivity.
  - rewrite Z2Nat.id; lia.
Qed.

Lemma appendInt_width3 x : 0 <= x < 1000 -> String.length (appendInt x 3) = 3%nat.
Proof.
  intros H.
  apply Nat.eqb_eq.
  apply (all_from_spec (Z.to_nat 1000) 0
           (fun x => Nat.eqb (String.length (appendInt x 3)) 3) x).
  - vm_compute. reflexivity.
  - rewrite Z2Nat.id; lia.
Qed.

Lemma appendInt_width4 x : 0 <= x < 10000 -> String.length (appendInt x 4) = 4%nat.
Proof.
  intros H.
  apply Nat.eqb_eq.
  apply (all_from_spec (Z.to_nat 10000) 0
           (fun x => Nat.eqb (String.length (appendInt x 4)) 4) x).
  - vm_compute. reflexivity.
  - rewrite Z2Nat.id; lia.
Qed.

Lemma era_days_ok doe : 0 <= doe < 146097 -> era_day_ok doe = true.
Proof.
  intros H. apply (all_from_spec (Z.to_nat 146097) 0 era_day_ok doe).
  - vm_compute. reflexivity.
  - rewrite Z2Nat.id; lia.
Qed.

Lemma civil_from_days_era days :
  let z := days + 719468 in
  let era := z / 146097 in
  let doe := z - era * 146097 in
  civil_from_days days =
  let '(y, m, d) := civil_from_days (doe - 719468) in (y + era * 400, m, d).
Proof.
  cbv zeta. unfold civil_from_days.
  set (z := days + 719468). set (era := z / 146097). set (doe := z - era * 146097).
  assert (Hdoe : 0 <= doe < 146097).
  { unfold doe, era. pose proof (Z.mod_pos_bound z 146097 ltac:(lia)) as H.
    rewrite Z.mod_eq in H by lia. lia. }
  replace (doe - 719468 + 719468) with doe by lia.
  rewrite (Z.div_small doe 146097) by lia.
  replace (doe - 0 * 146097) with doe by lia.
  cbv zeta. rewrite Z.mul_0_l, Z.add_0_r.
  repeat match goal with |- context [if ?c then _ else _] => destruct c end;
    f_equal; f_equal; lia.
Qed.

Lemma civil_from_days_bounds days :
  -106752 <= days <= 106751 ->
  let '(y, m, d) := civil_from_days days in
  1600 <= y <= 2400 /\ 1 <= m <= 12 /\ 1 <= d <= 31.
Proof.
  intros H. rewrite civil_from_days_era. cbv zeta.
  set (z := days + 719468). set (era := z / 146097). set (doe := z - era * 146097).
  assert (Hera : 4 <= era <= 5).
  { unfold era, z. split.
    - apply Z.div_le_lower_bound; lia.
    - apply Z.lt_succ_r. apply Z.div_lt_upper_bound; lia. }
  assert (Hdoe : 0 <= doe < 146097).
  { unfold doe, era. pose proof (Z.mod_pos_bound z 146097 ltac:(lia)) as Hm.
    rewrite Z.mod_eq in Hm by lia. lia. }
  pose proof (era_days_ok doe Hdoe) as Hok. unfold era_day_ok in Hok.
  destruct (civil_from_days (doe - 719468)) as [[y m] d].
  repeat (apply andb_true_iff in Hok as [Hok ?]). lia.
Qed.

Lemma length_append s1 s2 :
  String.length (s1 +:+ s2) = (String.length s1 + String.length s2)%nat.
Proof.
  induction s1 as [|c s1 IH]; [reflexivity|].
  change (String c s1 +:+ s2) with (String c (s1 +:+ s2)).
  cbn [String.length Nat.add]. f_equal. exact IH.
Qed.

(** X22: for every clock reading within the [int64] range of
    nanoseconds, the timestamp [Format] gives is 21 bytes long. *)
Theorem Format_width t :
  - 2 ^ 63 <= t < 2 ^ 63 -> String.length (Format t) = 21%nat.
Proof.
  intros H. unfold Format.
  assert (Hd : -106752 <= t / 1000000000 / 86400 <= 106751).
  { split.
    - apply Z.div_le_lower_bound; [lia|]. apply Z.div_le_lower_bound; lia.
    - apply Z.lt_succ_r. apply Z.div_lt_upper_bound; [lia|].
      apply Z.div_lt_upper_bound; lia. }
  pose proof (civil_from_days_bounds _ Hd) as Hb.
  destruct (civil_from_days (t / 1000000000 / 86400)) as [[y m] d].
  destruct Hb as (Hy & Hm & Hdd).
  pose proof (Z.mod_pos_bound (t / 1000000000) 86400 ltac:(lia)) as Hrem.
  pose proof (Z.mod_pos_bound t 1000000000 ltac:(lia)) as Hns.
  set (rem := (t / 1000000000) mod 86400) in *.
  set (nsec := t mod 1000000000) in *.
  assert (H1 : 0 <= rem / 3600 < 100)
    by (split; [apply Z.div_pos; lia | apply Z.div_lt_upper_bound; lia]).
  assert (H2 : 0 <= rem mod 3600 / 60 < 100).
  { pose proof (Z.mod_pos_bound rem 3600 ltac:(lia)).
    split; [apply Z.div_pos; lia | apply Z.div_lt_upper_bound; lia]. }
  assert (H3 : 0 <= rem mod 60 < 100)
    by (pose proof (Z.mod_pos_bound rem 60 ltac:(lia)); lia).
  assert (H4 : 0 <= nsec / 1000000 < 1000)
    by (split; [apply Z.div_pos; lia | apply Z.div_lt_upper_bound; lia]).
  rewrite !length_append.
  rewrite (appendInt_width4 y), (appendInt_width2 m), (appendInt_width2 d) by lia.
  rewrite (appendInt_width2 _ H1), (appendInt_width2 _ H2), (appendInt_width2 _ H3),
    (appendInt_width3 _ H4).
  reflexivity.
Qed.

(** [Format_width] at a reading of November 2023. *)
Lemma Format_width_witness : String.length (Format 1700000000123456789) = 21%nat.
Proof. apply Format_width. vm_compute. split; [discriminate|reflexivity]. Defined.

(** [one_order_per_logon] over [session0] in [w0], whose engine refuses
    nothing. *)
Lemma one_order_per_logon_witness :
  List.length (outbox (run_callbacks app0 session0 w0).2)
  = (List.length (outbox w0) + count_logons session0)%nat.
Proof.
  apply (proj2 (one_order_per_logon app0 session0 w0)). intros m sid. reflexivity.
Defined.
